(** * RAClient: request construction and parameter validation

    A shallow embedding of [retroachievements/client.py].  The class
    [RAClient] wraps the read-only RetroAchievements web API: every
    endpoint wrapper checks its arguments, builds a dict of query
    parameters, hands it to [_call_api] (which merges the API key in and
    performs one HTTP GET), and decodes the answer with [.json()].

    Python strings are sequences of Unicode code points, dicts keep their
    insertion order and are shared by reference, exceptions leave the
    side effects that happened before them in place.  The embedding keeps
    all three: strings are lists of code points, dict objects live in a
    heap addressed by references, and the methods run in a state monad
    whose outcome is a value or a raised exception. *)

From Stdlib Require Import ZArith NArith List String Ascii Bool Lia DecimalString DecimalPos.
From stdpp Require Import base list.
Import ListNotations.

Set Warnings "-register-all".
Local Open Scope N_scope.

(** ** Python strings *)

(** A [str] is a sequence of code points. *)
Definition pystr := list N.

(** The string literals of the source are all ASCII. *)
Definition lit (s : string) : pystr :=
  List.map N_of_ascii (list_ascii_of_string s).

(** [a == b] on strings. *)
Definition pystr_eqb (a b : pystr) : bool := bool_decide (a = b).

(** Truth value of a string: [bool(s)] is false only for [""]. *)
Definition truthy (s : pystr) : bool :=
  match s with
  | [] => false
  | _ :: _ => true
  end.

(** [s.split(sep)] for a one-character separator: the pieces between the
    occurrences of [sep], empty pieces included; never an empty list. *)
Fixpoint split (sep : N) (s : pystr) : list pystr :=
  match s with
  | [] => [[]]
  | c :: s' =>
      if c =? sep then [] :: split sep s'
      else match split sep s' with
           | [] => [[c]]
           | tok :: toks => (c :: tok) :: toks
           end
  end.

(** [sep.join(parts)], the inverse of [split]. *)
Fixpoint join (sep : N) (parts : list pystr) : pystr :=
  match parts with
  | [] => []
  | [p] => p
  | p :: ps => p ++ sep :: join sep ps
  end.

(** The two character classes below follow CPython: code points under 128
    are looked up in fixed ASCII tables, the others in the Unicode
    character database, which is not part of this repository and is taken
    as a parameter. *)
Definition ascii_whitespace (c : N) : bool :=
  ((9 <=? c) && (c <=? 13)) || ((28 <=? c) && (c <=? 32)).

Definition ascii_digit (c : N) : bool :=
  (48 <=? c) && (c <=? 57).

Section Unicode.

Variable unicode_isspace : N -> bool.
Variable unicode_isdigit : N -> bool.

Definition Py_UNICODE_ISSPACE (c : N) : bool :=
  if c <? 128 then ascii_whitespace c else unicode_isspace c.

Definition Py_UNICODE_ISDIGIT (c : N) : bool :=
  if c <? 128 then ascii_digit c else unicode_isdigit c.

(** [s.lstrip()]: drop the leading whitespace. *)
Fixpoint lstrip (s : pystr) : pystr :=
  match s with
  | [] => []
  | c :: s' => if Py_UNICODE_ISSPACE c then lstrip s' else s
  end.

(** [s.rstrip()]: drop the trailing whitespace. *)
Fixpoint rstrip (s : pystr) : pystr :=
  match s with
  | [] => []
  | c :: s' =>
      match rstrip s' with
      | [] => if Py_UNICODE_ISSPACE c then [] else [c]
      | r => c :: r
      end
  end.

(** [s.strip()]: drop the whitespace at both ends. *)
Definition strip (s : pystr) : pystr := rstrip (lstrip s).

(** [s.isdigit()]: at least one character, and all of them digits. *)
Definition isdigit (s : pystr) : bool :=
  truthy s && forallb Py_UNICODE_ISDIGIT s.

End Unicode.

(** [str(n)] for an integer: decimal digits, a minus sign for negatives. *)
Fixpoint digits_of_uint (d : Decimal.uint) : pystr :=
  match d with
  | Decimal.Nil => []
  | Decimal.D0 d => 48 :: digits_of_uint d
  | Decimal.D1 d => 49 :: digits_of_uint d
  | Decimal.D2 d => 50 :: digits_of_uint d
  | Decimal.D3 d => 51 :: digits_of_uint d
  | Decimal.D4 d => 52 :: digits_of_uint d
  | Decimal.D5 d => 53 :: digits_of_uint d
  | Decimal.D6 d => 54 :: digits_of_uint d
  | Decimal.D7 d => 55 :: digits_of_uint d
  | Decimal.D8 d => 56 :: digits_of_uint d
  | Decimal.D9 d => 57 :: digits_of_uint d
  end.

Definition str_of_int (n : Z) : pystr :=
  match Z.to_int n with
  | Decimal.Pos d => digits_of_uint d
  | Decimal.Neg d => 45 :: digits_of_uint d
  end.

(** ** Python values and dicts *)

(** The values that reach the client as arguments or query parameters. *)
Inductive value :=
| VNone
| VBool (b : bool)
| VInt (n : Z)
| VFloat (mantissa exponent : Z)
| VStr (s : pystr)
| VBytes (b : list N)
| VList (items : list value).

(** [isinstance(v, int)]: [bool] is a subclass of [int]. *)
Definition isinstance_int (v : value) : bool :=
  match v with
  | VInt _ | VBool _ => true
  | _ => false
  end.

(** [isinstance(v, str)]. *)
Definition isinstance_str (v : value) : bool :=
  match v with
  | VStr _ => true
  | _ => false
  end.

(** [x in l] on a list of integer literals, and on a list of strings. *)
Definition int_in (x : Z) (l : list Z) : bool := existsb (Z.eqb x) l.
Definition str_in (x : pystr) (l : list pystr) : bool := existsb (pystr_eqb x) l.

(** A dict keeps its items in insertion order. *)
Definition dict := list (pystr * value).

Fixpoint dict_get (k : pystr) (d : dict) : option value :=
  match d with
  | [] => None
  | (k', v) :: d' => if pystr_eqb k k' then Some v else dict_get k d'
  end.

(** [d[k] = v]: an existing key keeps its place, a new one goes last. *)
Fixpoint dict_setitem (k : pystr) (v : value) (d : dict) : dict :=
  match d with
  | [] => [(k, v)]
  | (k', v') :: d' =>
      if pystr_eqb k k' then (k', v) :: d' else (k', v') :: dict_setitem k v d'
  end.

(** [d.update(other)]. *)
Definition dict_update (d other : dict) : dict :=
  fold_left (fun acc kv => dict_setitem (fst kv) (snd kv) acc) other d.

(** ** Calls, requests and responses *)

(** An argument of a call: left out, or passed.  A parameter that has a
    default in the source is an [arg]; a parameter without one is bound
    by every call that reaches the body, and is taken at its annotated
    type ([int] as [Z], [str] as [pystr], [str | None] as an option). *)
Inductive arg (A : Type) :=
| Omitted
| Passed (a : A).
Arguments Omitted {A}.
Arguments Passed {A} a.

Definition arg_default {A} (d : A) (a : arg A) : A :=
  match a with
  | Omitted => d
  | Passed x => x
  end.

(** A reference to a dict object in the heap. *)
Abbreviation ref := nat.

Inductive http_method := GET.

(** What [requests.get] is called with; [params] and [headers] are the
    contents of the dicts at the time of the call. *)
Record Request := mkRequest {
  req_method : http_method;
  req_url : pystr;
  req_params : dict;
  req_timeout : Z;
  req_headers : option dict
}.

(** A decoded JSON document. *)
Inductive JSON :=
| JNull
| JBool (b : bool)
| JInt (n : Z)
| JFloat (literal : pystr)
| JString (s : pystr)
| JArray (items : list JSON)
| JObject (members : list (pystr * JSON)).

(** A [requests.Response]; [decoded] is what the JSON decoder, which is
    outside this library, makes of the body ([None] when it is not JSON). *)
Record Response := mkResponse {
  status_code : Z;
  text : pystr;
  decoded : option JSON
}.

(** The objects a method of the client can hand back. *)
Inductive pyobject :=
| ObjResponse (r : Response)
| ObjJSON (j : JSON).

Inductive exn :=
| ValueError (msg : string)
| TypeError (missing : string)
| AttributeError
| RequestException
| JSONDecodeError.



Inductive warning_category := Warning | DeprecationWarning.

(** One call of [warnings.warn]. *)
Record Advisory := mkAdvisory {
  adv_message : string;
  adv_category : warning_category
}.

(** A [datetime.date]. *)
Record date := mkDate {
  year : N;
  month : N;
  day : N
}.

(** [s.zfill(width)] for a string of digits. *)
Definition zfill (width : nat) (s : pystr) : pystr :=
  repeat 48 (width - length s)%nat ++ s.

(** [d.strftime("%Y-%m-%d")], as CPython gives it with the C library of
    Linux: [%Y] is the year in decimal with no padding, so a year under
    1000 has fewer than four digits; [%m] and [%d] are padded to two. *)
Definition strftime_Ymd (d : date) : pystr :=
  str_of_int (Z.of_N (year d)) ++ 45 ::
  zfill 2 (str_of_int (Z.of_N (month d))) ++ 45 ::
  zfill 2 (str_of_int (Z.of_N (day d))).

(** ** The world the client runs in *)

Record World := mkWorld {
  heap : list dict;
  sent : list Request;
  advisories : list Advisory;
  today : date
}.

Inductive outcome (A : Type) :=
| Return (a : A)
| Raise (e : exn).
Arguments Return {A} a.
Arguments Raise {A} e.

(** A computation changes the world and returns a value or raises; what
    it did before raising stays done. *)
Definition M (A : Type) := World -> outcome A * World.

Definition ret {A} (a : A) : M A := fun w => (Return a, w).

Definition raise {A} (e : exn) : M A := fun w => (Raise e, w).

Definition bind {A B} (m : M A) (k : A -> M B) : M B :=
  fun w =>
    match m w with
    | (Return a, w') => k a w'
    | (Raise e, w') => (Raise e, w')
    end.

Notation "x <- m ;; k" := (bind m (fun x => k))
  (at level 20, m at level 99, k at level 200, format "x  <-  m  ;;  '/' k").
Notation "m ;;; k" := (bind m (fun _ => k))
  (at level 20, k at level 200, format "m  ;;;  '/' k").

(** A dict display [{...}] allocates a new dict object. *)
Definition new_dict (d : dict) : M ref :=
  fun w =>
    (Return (length (heap w)),
     mkWorld (heap w ++ [d]) (sent w) (advisories w) (today w)).

(** [p.update(other)] on the object behind [p]. *)
Definition update_at (p : ref) (other : dict) : M unit :=
  fun w =>
    match heap w !! p with
    | Some d =>
        (Return tt,
         mkWorld (<[p := dict_update d other]> (heap w))
                 (sent w) (advisories w) (today w))
    | None => (Raise AttributeError, w)
    end.

Definition read_dict (p : ref) : M dict :=
  fun w =>
    match heap w !! p with
    | Some d => (Return d, w)
    | None => (Raise AttributeError, w)
    end.

Definition read_headers (h : option ref) : M (option dict) :=
  match h with
  | None => ret None
  | Some p => d <- read_dict p ;; ret (Some d)
  end.

(** [warnings.warn(message, category, stacklevel=2)].  The log keeps what
    was passed to [warn]; the filters of the interpreter then print it or
    drop it. *)
Definition warn (message : string) (category : warning_category) : M unit :=
  fun w =>
    (Return tt,
     mkWorld (heap w) (sent w)
             (advisories w ++ [mkAdvisory message category]) (today w)).

(** [datetime.date.today()]. *)
Definition date_today : M date := fun w => (Return (today w), w).

Definition _BASE_URL : pystr := lit "https://retroachievements.org/API/".

(** The client object; [__init__] stores the API key. *)
Record RAClient := mkRAClient { api_key : pystr }.

(** [None] or a string, as a query-parameter value. *)
Definition value_of_optional (o : option pystr) : value :=
  match o with
  | None => VNone
  | Some s => VStr s
  end.

(** The texts of the three advisories. *)
Definition user_progress_advisory : string :=
  "Unless you are explicitly wanting summary progress details for specific game IDS, get_user_completion_progress will almost certainly be better-suited for your use case.".

Definition user_summary_advisory : string :=
  String.append
    "This endpoint is known to be slow, and often results in over-fetching. For basic user profile information, try the get_user_profile endpoint. For user completion and game progress information, try the get_user_completion_progress endpoint."
    "Recent achievements are pulled from recent games, so if you ask for 1 game and 10 achievements, and the user has only earned 8 achievements in the most recent game, you'll only get 8 recent achievements back. Similarly, with the default of 0 recent games, no recent achievements will be returned.".

Definition user_completed_games_advisory : string :=
  "This endpoint is considered 'legacy'. The get_user_completion_progress endpoint will almost always be a better fit for your use case.".

(** A call of one of the endpoint wrappers, with its arguments. *)
Inductive call :=
| Call_get_user_profile (user : pystr) (ulid : pystr)
| Call_get_user_recent_achievements (user : pystr) (minutes : arg Z)
| Call_get_user_achievements_earned_between (user : pystr) (start : Z) (end_ : Z)
| Call_get_user_achievements_earned_on_day (user : pystr) (date : arg (option pystr))
| Call_get_game_info_and_user_progress (user : pystr) (game : Z) (awards : arg Z)
| Call_get_user_completion_progress (user : pystr) (count : arg Z) (offset : arg Z)
| Call_get_user_awards (user : pystr)
| Call_get_user_claims (user : pystr)
| Call_get_user_game_rank_and_score (user : pystr) (game : Z)
| Call_get_user_points (user : pystr)
| Call_get_user_progress (user : pystr) (game : value)
| Call_get_user_recently_played_games (user : pystr) (count : arg Z) (offset : arg Z)
| Call_get_user_summary (user : pystr) (recent_games : arg Z) (recent_cheevos : arg Z)
| Call_get_user_completed_games (user : pystr)
| Call_get_user_want_to_play_list (user : pystr) (count : arg Z) (offset : arg Z)
| Call_get_users_i_follow (user : pystr) (count : arg Z) (offset : arg Z)
| Call_get_users_following_me (user : pystr) (count : arg Z) (offset : arg Z)
| Call_get_user_set_requests (user : pystr) (list_type : arg Z)
| Call_get_game (game : Z)
| Call_get_game_extended (game : Z) (set_level : arg Z)
| Call_get_game_hashes (game : Z)
| Call_get_achievement_count (game : Z)
| Call_get_achievement_distribution (game : Z) (achievement_type : arg Z) (set_level : arg Z)
| Call_get_game_rank_and_score (game : Z) (list_type : arg Z)
| Call_get_game_leaderboards (game : Z) (count : arg Z) (offset : arg Z)
| Call_get_leaderboard_entries (leaderboard : Z) (count : arg Z) (offset : arg Z)
| Call_get_user_game_leaderboards (game : Z) (user : pystr) (count : arg Z) (offset : arg Z)
| Call_get_console_ids
| Call_get_game_list (system : Z) (has_cheevos : arg Z) (hashes : arg Z)
| Call_get_achievement_unlocks (achievement : Z) (count : arg Z) (offset : arg Z)
| Call_get_comments (game target : Z) (count offset : arg Z) (sort : arg pystr)
| Call_get_recent_game_awards (date : arg (option pystr)) (offset count : arg Z) (kind : arg (option pystr))
| Call_get_active_claims
| Call_get_inactive_claims (kind : arg Z)
| Call_get_top_ten_users
| Call_get_achievement_of_the_week
| Call_get_ticket_data (ticket_id : Z)
| Call_get_most_ticketed_games (focus : arg Z)
| Call_get_most_recent_tickets (count : arg Z) (offset : arg Z)
| Call_get_game_ticket_stats (game : Z) (focus : arg Z) (depth : arg Z)
| Call_get_developer_ticket_stats (username : pystr) (ulid : pystr)
| Call_get_achievement_ticket_stats (achievement : Z).


Section Client.

(** The Unicode tables behind [str.strip] and [str.isdigit]. *)
Variable unicode_isspace : N -> bool.
Variable unicode_isdigit : N -> bool.

(** The network and the remote service: the answer to a request, given
    the requests sent before it; [None] is a transport failure. *)
Variable server : list Request -> Request -> option Response.

(** [requests.get(url, params=..., timeout=..., headers=...)]. *)
Definition requests_get (url : pystr) (params : ref) (timeout : Z)
    (headers : option ref) : M pyobject :=
  d <- read_dict params ;;
  h <- read_headers headers ;;
  fun w =>
    let rq := mkRequest GET url d timeout h in
    let w' := mkWorld (heap w) (sent w ++ [rq]) (advisories w) (today w) in
    match server (sent w) rq with
    | Some r => (Return (ObjResponse r), w')
    | None => (Raise RequestException, w')
    end.

(** [Response.json()]. *)
Definition json (o : pyobject) : M JSON :=
  match o with
  | ObjResponse r =>
      match decoded r with
      | Some j => ret j
      | None => raise JSONDecodeError
      end
  | ObjJSON _ => raise AttributeError
  end.

(** The dict display [{"y": self.api_key}] handed to [update] is read
    once and then unreachable; the heap keeps the dicts that stay in
    use, so it is passed as a value. *)
Definition url_params (self : RAClient) (params : option ref) : M ref :=
  params <- match params with
            | None => new_dict []
            | Some p => ret p
            end ;;
  update_at params [(lit "y", VStr (api_key self))] ;;;
  ret params.

Definition is_valid_game_csv (self : RAClient) (v : value) : bool :=
  if isinstance_int v then true
  else match v with
       | VStr s =>
           let parts := split 44 s in
           forallb (fun part => isdigit unicode_isdigit (strip unicode_isspace part))
                   (List.filter truthy parts)
       | _ => false
       end.

Definition _call_api (self : RAClient) (endpoint : arg (option pystr))
    (params : arg (option ref)) (timeout : arg Z)
    (headers : arg (option ref)) : M pyobject :=
  let endpoint := match arg_default None endpoint with
                  | None => lit ""
                  | Some e => e
                  end in
  p <- url_params self (arg_default None params) ;;
  req <- requests_get (_BASE_URL ++ endpoint) p (arg_default 30%Z timeout)
                      (arg_default None headers) ;;
  ret req.

(** *** The endpoint wrappers

    Each wrapper is written as in the source: defaults, advisory and
    checks if any, then the dict display, the call of [_call_api] with
    the endpoint and the dict as its two positional arguments, and
    [.json()] on what comes back.  The parameter [end] of
    [get_user_achievements_earned_between] is spelled [end_]. *)

Definition get_user_profile (self : RAClient)
    (user : pystr) (ulid : pystr) : M JSON :=
  params <- new_dict [(lit "u", VStr user); (lit "i", VStr ulid)] ;;
  result <- _call_api self (Passed (Some (lit "API_GetUserProfile.php?")))
              (Passed (Some params)) Omitted Omitted ;;
  json result.

Definition get_user_recent_achievements (self : RAClient)
    (user : pystr) (minutes : arg Z) : M JSON :=
  let minutes := arg_default 60%Z minutes in
  params <- new_dict [(lit "u", VStr user); (lit "m", VInt minutes)] ;;
  result <- _call_api self (Passed (Some (lit "API_GetUserRecentAchievements.php?")))
              (Passed (Some params)) Omitted Omitted ;;
  json result.

Definition get_user_achievements_earned_between (self : RAClient)
    (user : pystr) (start : Z) (end_ : Z) : M JSON :=
  params <- new_dict [(lit "u", VStr user); (lit "s", VInt start); (lit "e", VInt end_)] ;;
  result <- _call_api self (Passed (Some (lit "API_GetAchievementsEarnedBetween.php?")))
              (Passed (Some params)) Omitted Omitted ;;
  json result.

(** [date] has no default in the signature: a call that leaves it out is
    refused when the arguments are bound, before the body runs. *)
Definition get_user_achievements_earned_on_day (self : RAClient)
    (user : pystr) (date : arg (option pystr)) : M JSON :=
  match date with
  | Omitted => raise (TypeError "date")
  | Passed date =>
      date <- match date with
              | None => d <- date_today ;; ret (strftime_Ymd d)
              | Some s => ret s
              end ;;
      params <- new_dict [(lit "u", VStr user); (lit "d", VStr date)] ;;
      result <- _call_api self (Passed (Some (lit "API_GetAchievementsEarnedOnDay.php?")))
                  (Passed (Some params)) Omitted Omitted ;;
      json result
  end.

Definition get_game_info_and_user_progress (self : RAClient)
    (user : pystr) (game : Z) (awards : arg Z) : M JSON :=
  let awards := arg_default 0%Z awards in
  (if negb (int_in awards [0; 1]%Z)
   then raise (ValueError "Invalid awards value. Must be 0 or 1.")
   else ret tt) ;;;
  params <- new_dict [(lit "u", VStr user); (lit "g", VInt game); (lit "a", VInt awards)] ;;
  result <- _call_api self (Passed (Some (lit "API_GetGameInfoAndUserProgress.php?")))
              (Passed (Some params)) Omitted Omitted ;;
  json result.

Definition get_user_completion_progress (self : RAClient)
    (user : pystr) (count : arg Z) (offset : arg Z) : M JSON :=
  let count := arg_default 100%Z count in
  let offset := arg_default 0%Z offset in
  params <- new_dict [(lit "u", VStr user); (lit "c", VInt count); (lit "o", VInt offset)] ;;
  result <- _call_api self (Passed (Some (lit "API_GetUserCompletionProgress.php?")))
              (Passed (Some params)) Omitted Omitted ;;
  json result.

Definition get_user_awards (self : RAClient) (user : pystr) : M JSON :=
  params <- new_dict [(lit "u", VStr user)] ;;
  result <- _call_api self (Passed (Some (lit "API_GetUserAwards.php?")))
              (Passed (Some params)) Omitted Omitted ;;
  json result.

Definition get_user_claims (self : RAClient) (user : pystr) : M JSON :=
  params <- new_dict [(lit "u", VStr user)] ;;
  result <- _call_api self (Passed (Some (lit "API_GetUserClaims.php?")))
              (Passed (Some params)) Omitted Omitted ;;
  json result.

Definition get_user_game_rank_and_score (self : RAClient)
    (user : pystr) (game : Z) : M JSON :=
  params <- new_dict [(lit "u", VStr user); (lit "g", VInt game)] ;;
  result <- _call_api self (Passed (Some (lit "API_GetUserGameRankAndScore.php?")))
              (Passed (Some params)) Omitted Omitted ;;
  json result.

Definition get_user_points (self : RAClient) (user : pystr) : M JSON :=
  params <- new_dict [(lit "u", VStr user)] ;;
  result <- _call_api self (Passed (Some (lit "API_GetUserPoints.php?")))
              (Passed (Some params)) Omitted Omitted ;;
  json result.

Definition get_user_progress (self : RAClient) (user : pystr)
    (game : value) : M JSON :=
  warn user_progress_advisory Warning ;;;
  (if negb (is_valid_game_csv self game)
   then raise (ValueError "Invalid game ID or CSV format")
   else ret tt) ;;;
  params <- new_dict [(lit "u", VStr user); (lit "i", game)] ;;
  result <- _call_api self (Passed (Some (lit "API_GetUserProgress.php?")))
              (Passed (Some params)) Omitted Omitted ;;
  json result.

Definition get_user_recently_played_games (self : RAClient)
    (user : pystr) (count : arg Z) (offset : arg Z) : M JSON :=
  let count := arg_default 10%Z count in
  let offset := arg_default 0%Z offset in
  params <- new_dict [(lit "u", VStr user); (lit "c", VInt count); (lit "o", VInt offset)] ;;
  result <- _call_api self (Passed (Some (lit "API_GetUserRecentlyPlayedGames.php?")))
              (Passed (Some params)) Omitted Omitted ;;
  json result.

Definition get_user_summary (self : RAClient)
    (user : pystr) (recent_games : arg Z) (recent_cheevos : arg Z) : M JSON :=
  let recent_games := arg_default 0%Z recent_games in
  let recent_cheevos := arg_default 10%Z recent_cheevos in
  warn user_summary_advisory Warning ;;;
  params <- new_dict [(lit "u", VStr user); (lit "g", VInt recent_games); (lit "a", VInt recent_cheevos)] ;;
  result <- _call_api self (Passed (Some (lit "API_GetUserSummary.php?")))
              (Passed (Some params)) Omitted Omitted ;;
  json result.

Definition get_user_completed_games (self : RAClient)
    (user : pystr) : M JSON :=
  warn user_completed_games_advisory DeprecationWarning ;;;
  params <- new_dict [(lit "u", VStr user)] ;;
  result <- _call_api self (Passed (Some (lit "API_GetUserCompletedGames.php?")))
              (Passed (Some params)) Omitted Omitted ;;
  json result.

Definition get_user_want_to_play_list (self : RAClient)
    (user : pystr) (count : arg Z) (offset : arg Z) : M JSON :=
  let count := arg_default 100%Z count in
  let offset := arg_default 0%Z offset in
  params <- new_dict [(lit "u", VStr user); (lit "c", VInt count); (lit "o", VInt offset)] ;;
  result <- _call_api self (Passed (Some (lit "API_GetUserWantToPlayList.php?")))
              (Passed (Some params)) Omitted Omitted ;;
  json result.

Definition get_users_i_follow (self : RAClient)
    (user : pystr) (count : arg Z) (offset : arg Z) : M JSON :=
  let count := arg_default 100%Z count in
  let offset := arg_default 0%Z offset in
  params <- new_dict [(lit "u", VStr user); (lit "c", VInt count); (lit "o", VInt offset)] ;;
  result <- _call_api self (Passed (Some (lit "API_GetUsersIFollow.php?")))
              (Passed (Some params)) Omitted Omitted ;;
  json result.

Definition get_users_following_me (self : RAClient)
    (user : pystr) (count : arg Z) (offset : arg Z) : M JSON :=
  let count := arg_default 100%Z count in
  let offset := arg_default 0%Z offset in
  params <- new_dict [(lit "u", VStr user); (lit "c", VInt count); (lit "o", VInt offset)] ;;
  result <- _call_api self (Passed (Some (lit "API_GetUsersFollowingMe.php?")))
              (Passed (Some params)) Omitted Omitted ;;
  json result.

Definition get_user_set_requests (self : RAClient)
    (user : pystr) (list_type : arg Z) : M JSON :=
  let list_type := arg_default 0%Z list_type in
  (if negb (int_in list_type [0; 1]%Z)
   then raise (ValueError "Invalid list type. Must be 0 or 1.")
   else ret tt) ;;;
  params <- new_dict [(lit "u", VStr user); (lit "t", VInt list_type)] ;;
  result <- _call_api self (Passed (Some (lit "API_GetUserSetRequests.php?")))
              (Passed (Some params)) Omitted Omitted ;;
  json result.

Definition get_game (self : RAClient) (game : Z) : M JSON :=
  params <- new_dict [(lit "i", VInt game)] ;;
  result <- _call_api self (Passed (Some (lit "API_GetGame.php?")))
              (Passed (Some params)) Omitted Omitted ;;
  json result.

Definition get_game_extended (self : RAClient)
    (game : Z) (set_level : arg Z) : M JSON :=
  let set_level := arg_default 3%Z set_level in
  (if negb (int_in set_level [3; 5]%Z)
   then raise (ValueError "Invalid set type selected. Must be 3 or 5.")
   else ret tt) ;;;
  params <- new_dict [(lit "i", VInt game); (lit "f", VInt set_level)] ;;
  result <- _call_api self (Passed (Some (lit "API_GetGameExtended.php?")))
              (Passed (Some params)) Omitted Omitted ;;
  json result.

Definition get_game_hashes (self : RAClient) (game : Z) : M JSON :=
  params <- new_dict [(lit "i", VInt game)] ;;
  result <- _call_api self (Passed (Some (lit "API_GetGameHashes.php?")))
              (Passed (Some params)) Omitted Omitted ;;
  json result.

Definition get_achievement_count (self : RAClient) (game : Z) : M JSON :=
  params <- new_dict [(lit "i", VInt game)] ;;
  result <- _call_api self (Passed (Some (lit "API_GetAchievementCount.php?")))
              (Passed (Some params)) Omitted Omitted ;;
  json result.

Definition get_achievement_distribution (self : RAClient)
    (game : Z) (achievement_type : arg Z) (set_level : arg Z) : M JSON :=
  let achievement_type := arg_default 0%Z achievement_type in
  let set_level := arg_default 3%Z set_level in
  (if negb (int_in achievement_type [0; 1]%Z)
   then raise (ValueError "Invalid achievement type. Must be 0 or 1.")
   else ret tt) ;;;
  (if negb (int_in set_level [3; 5]%Z)
   then raise (ValueError "Invalid set type selected. Must be 3 or 5.")
   else ret tt) ;;;
  params <- new_dict [(lit "i", VInt game); (lit "h", VInt achievement_type); (lit "f", VInt set_level)] ;;
  result <- _call_api self (Passed (Some (lit "API_GetAchievementDistribution.php?")))
              (Passed (Some params)) Omitted Omitted ;;
  json result.

Definition get_game_rank_and_score (self : RAClient)
    (game : Z) (list_type : arg Z) : M JSON :=
  let list_type := arg_default 0%Z list_type in
  (if negb (int_in list_type [0; 1]%Z)
   then raise (ValueError "Invalid list type. Must be 0 or 1.")
   else ret tt) ;;;
  params <- new_dict [(lit "g", VInt game); (lit "t", VInt list_type)] ;;
  result <- _call_api self (Passed (Some (lit "API_GetGameRankAndScore.php?")))
              (Passed (Some params)) Omitted Omitted ;;
  json result.

Definition get_game_leaderboards (self : RAClient)
    (game : Z) (count : arg Z) (offset : arg Z) : M JSON :=
  let count := arg_default 100%Z count in
  let offset := arg_default 0%Z offset in
  params <- new_dict [(lit "i", VInt game); (lit "c", VInt count); (lit "o", VInt offset)] ;;
  result <- _call_api self (Passed (Some (lit "API_GetGameLeaderboards.php?")))
              (Passed (Some params)) Omitted Omitted ;;
  json result.

Definition get_leaderboard_entries (self : RAClient)
    (leaderboard : Z) (count : arg Z) (offset : arg Z) : M JSON :=
  let count := arg_default 100%Z count in
  let offset := arg_default 0%Z offset in
  params <- new_dict [(lit "i", VInt leaderboard); (lit "c", VInt count); (lit "o", VInt offset)] ;;
  result <- _call_api self (Passed (Some (lit "API_GetLeaderboardEntries.php?")))
              (Passed (Some params)) Omitted Omitted ;;
  json result.

Definition get_user_game_leaderboards (self : RAClient)
    (game : Z) (user : pystr) (count : arg Z) (offset : arg Z) : M JSON :=
  let count := arg_default 200%Z count in
  let offset := arg_default 0%Z offset in
  params <- new_dict [(lit "i", VInt game); (lit "u", VStr user); (lit "c", VInt count); (lit "o", VInt offset)] ;;
  result <- _call_api self (Passed (Some (lit "API_GetUserGameLeaderboards.php?")))
              (Passed (Some params)) Omitted Omitted ;;
  json result.

Definition get_console_ids (self : RAClient) : M JSON :=
  params <- new_dict [] ;;
  result <- _call_api self (Passed (Some (lit "API_GetConsoleIDs.php?")))
              (Passed (Some params)) Omitted Omitted ;;
  json result.

Definition get_game_list (self : RAClient)
    (system : Z) (has_cheevos : arg Z) (hashes : arg Z) : M JSON :=
  let has_cheevos := arg_default 0%Z has_cheevos in
  let hashes := arg_default 0%Z hashes in
  (if negb (int_in has_cheevos [0; 1]%Z)
   then raise (ValueError "Invalid has_cheevos value. Must be 0 or 1.")
   else ret tt) ;;;
  (if negb (int_in hashes [0; 1]%Z)
   then raise (ValueError "Invalid hashes value. Must be 0 or 1.")
   else ret tt) ;;;
  params <- new_dict [(lit "i", VInt system); (lit "f", VInt has_cheevos); (lit "h", VInt hashes)] ;;
  result <- _call_api self (Passed (Some (lit "API_GetGameList.php?")))
              (Passed (Some params)) Omitted Omitted ;;
  json result.

Definition get_achievement_unlocks (self : RAClient)
    (achievement : Z) (count : arg Z) (offset : arg Z) : M JSON :=
  let count := arg_default 50%Z count in
  let offset := arg_default 0%Z offset in
  params <- new_dict [(lit "a", VInt achievement); (lit "c", VInt count); (lit "o", VInt offset)] ;;
  result <- _call_api self (Passed (Some (lit "API_GetAchievementUnlocks.php?")))
              (Passed (Some params)) Omitted Omitted ;;
  json result.

Definition get_comments (self : RAClient) (game target : Z)
    (count offset : arg Z) (sort : arg pystr) : M JSON :=
  let count := arg_default 100%Z count in
  let offset := arg_default 0%Z offset in
  let sort := arg_default (lit "submitted") sort in
  (if negb (int_in target [1; 2; 3]%Z)
   then raise (ValueError "Invalid target type. Must be 1 (game), 2 (achievement), or 3 (user/ulid).")
   else ret tt) ;;;
  (if negb (str_in sort [lit "submitted"; lit "-submitted"])
   then raise (ValueError "Invalid sort order. Must be 'submitted' or '-submitted'.")
   else ret tt) ;;;
  params <- new_dict [(lit "i", VInt game); (lit "t", VInt target);
                      (lit "c", VInt count); (lit "o", VInt offset);
                      (lit "sort", VStr sort)] ;;
  result <- _call_api self (Passed (Some (lit "API_GetComments.php?")))
              (Passed (Some params)) Omitted Omitted ;;
  json result.

Definition get_recent_game_awards (self : RAClient)
    (date : arg (option pystr)) (offset count : arg Z)
    (kind : arg (option pystr)) : M JSON :=
  let date := arg_default None date in
  let offset := arg_default 0%Z offset in
  let count := arg_default 25%Z count in
  let kind := arg_default None kind in
  date <- match date with
          | None => d <- date_today ;; ret (strftime_Ymd d)
          | Some s => ret s
          end ;;
  (if match kind with
      | None => false
      | Some k => negb (str_in k [lit "beaten-softcore"; lit "beaten-hardcore";
                                  lit "completed"; lit "mastered"])
      end
   then raise (ValueError "Invalid kind value. Must be one of 'beaten-softcore', 'beaten-hardcore', 'completed', or 'mastered'.")
   else ret tt) ;;;
  params <- new_dict [(lit "d", VStr date); (lit "o", VInt offset);
                      (lit "c", VInt count); (lit "k", value_of_optional kind)] ;;
  result <- _call_api self (Passed (Some (lit "API_GetRecentGameAwards.php?")))
              (Passed (Some params)) Omitted Omitted ;;
  json result.

Definition get_active_claims (self : RAClient) : M JSON :=
  params <- new_dict [] ;;
  result <- _call_api self (Passed (Some (lit "API_GetActiveClaims.php?")))
              (Passed (Some params)) Omitted Omitted ;;
  json result.

Definition get_inactive_claims (self : RAClient) (kind : arg Z) : M JSON :=
  let kind := arg_default 1%Z kind in
  (if negb (int_in kind [1; 2; 3]%Z)
   then raise (ValueError "Invalid kind value. Must be 1 (completed), 2 (dropped) or 3 (expired).")
   else ret tt) ;;;
  params <- new_dict [(lit "k", VInt kind)] ;;
  result <- _call_api self (Passed (Some (lit "API_GetInactiveClaims.php?")))
              (Passed (Some params)) Omitted Omitted ;;
  json result.

Definition get_top_ten_users (self : RAClient) : M JSON :=
  params <- new_dict [] ;;
  result <- _call_api self (Passed (Some (lit "API_GetTopTenUsers.php?")))
              (Passed (Some params)) Omitted Omitted ;;
  json result.

Definition get_achievement_of_the_week (self : RAClient) : M JSON :=
  params <- new_dict [] ;;
  result <- _call_api self (Passed (Some (lit "API_GetAchievementOfTheWeek.php?")))
              (Passed (Some params)) Omitted Omitted ;;
  json result.

Definition get_ticket_data (self : RAClient) (ticket_id : Z) : M JSON :=
  params <- new_dict [(lit "i", VInt ticket_id)] ;;
  result <- _call_api self (Passed (Some (lit "API_GetTicketData.php?")))
              (Passed (Some params)) Omitted Omitted ;;
  json result.

Definition get_most_ticketed_games (self : RAClient)
    (focus : arg Z) : M JSON :=
  let focus := arg_default 1%Z focus in
  params <- new_dict [(lit "f", VInt focus)] ;;
  result <- _call_api self (Passed (Some (lit "API_GetTicketData.php?")))
              (Passed (Some params)) Omitted Omitted ;;
  json result.

Definition get_most_recent_tickets (self : RAClient)
    (count : arg Z) (offset : arg Z) : M JSON :=
  let count := arg_default 10%Z count in
  let offset := arg_default 0%Z offset in
  params <- new_dict [(lit "c", VInt count); (lit "o", VInt offset)] ;;
  result <- _call_api self (Passed (Some (lit "API_GetTicketData.php?")))
              (Passed (Some params)) Omitted Omitted ;;
  json result.

Definition get_game_ticket_stats (self : RAClient)
    (game : Z) (focus : arg Z) (depth : arg Z) : M JSON :=
  let focus := arg_default 3%Z focus in
  let depth := arg_default 0%Z depth in
  (if negb (int_in focus [3; 5]%Z)
   then raise (ValueError "Invalid focus value. Must be 3 (official) or 5 (unofficial).")
   else ret tt) ;;;
  params <- new_dict [(lit "g", VInt game); (lit "f", VInt focus); (lit "d", VInt depth)] ;;
  result <- _call_api self (Passed (Some (lit "API_GetTicketData.php?")))
              (Passed (Some params)) Omitted Omitted ;;
  json result.

Definition get_developer_ticket_stats (self : RAClient)
    (username : pystr) (ulid : pystr) : M JSON :=
  params <- new_dict [(lit "u", VStr username); (lit "i", VStr ulid)] ;;
  result <- _call_api self (Passed (Some (lit "API_GetTicketData.php?")))
              (Passed (Some params)) Omitted Omitted ;;
  json result.

Definition get_achievement_ticket_stats (self : RAClient)
    (achievement : Z) : M JSON :=
  params <- new_dict [(lit "a", VInt achievement)] ;;
  result <- _call_api self (Passed (Some (lit "API_GetTicketData.php?")))
              (Passed (Some params)) Omitted Omitted ;;
  json result.

(** Dispatch of a [call] to its wrapper. *)
Definition invoke (self : RAClient) (c : call) : M JSON :=
  match c with
  | Call_get_user_profile user ulid => get_user_profile self user ulid
  | Call_get_user_recent_achievements user minutes => get_user_recent_achievements self user minutes
  | Call_get_user_achievements_earned_between user start end_ => get_user_achievements_earned_between self user start end_
  | Call_get_user_achievements_earned_on_day user date => get_user_achievements_earned_on_day self user date
  | Call_get_game_info_and_user_progress user game awards => get_game_info_and_user_progress self user game awards
  | Call_get_user_completion_progress user count offset => get_user_completion_progress self user count offset
  | Call_get_user_awards user => get_user_awards self user
  | Call_get_user_claims user => get_user_claims self user
  | Call_get_user_game_rank_and_score user game => get_user_game_rank_and_score self user game
  | Call_get_user_points user => get_user_points self user
  | Call_get_user_progress user game => get_user_progress self user game
  | Call_get_user_recently_played_games user count offset => get_user_recently_played_games self user count offset
  | Call_get_user_summary user recent_games recent_cheevos => get_user_summary self user recent_games recent_cheevos
  | Call_get_user_completed_games user => get_user_completed_games self user
  | Call_get_user_want_to_play_list user count offset => get_user_want_to_play_list self user count offset
  | Call_get_users_i_follow user count offset => get_users_i_follow self user count offset
  | Call_get_users_following_me user count offset => get_users_following_me self user count offset
  | Call_get_user_set_requests user list_type => get_user_set_requests self user list_type
  | Call_get_game game => get_game self game
  | Call_get_game_extended game set_level => get_game_extended self game set_level
  | Call_get_game_hashes game => get_game_hashes self game
  | Call_get_achievement_count game => get_achievement_count self game
  | Call_get_achievement_distribution game achievement_type set_level => get_achievement_distribution self game achievement_type set_level
  | Call_get_game_rank_and_score game list_type => get_game_rank_and_score self game list_type
  | Call_get_game_leaderboards game count offset => get_game_leaderboards self game count offset
  | Call_get_leaderboard_entries leaderboard count offset => get_leaderboard_entries self leaderboard count offset
  | Call_get_user_game_leaderboards game user count offset => get_user_game_leaderboards self game user count offset
  | Call_get_console_ids => get_console_ids self 
  | Call_get_game_list system has_cheevos hashes => get_game_list self system has_cheevos hashes
  | Call_get_achievement_unlocks achievement count offset => get_achievement_unlocks self achievement count offset
  | Call_get_comments game target count offset sort => get_comments self game target count offset sort
  | Call_get_recent_game_awards date offset count kind => get_recent_game_awards self date offset count kind
  | Call_get_active_claims => get_active_claims self 
  | Call_get_inactive_claims kind => get_inactive_claims self kind
  | Call_get_top_ten_users => get_top_ten_users self 
  | Call_get_achievement_of_the_week => get_achievement_of_the_week self 
  | Call_get_ticket_data ticket_id => get_ticket_data self ticket_id
  | Call_get_most_ticketed_games focus => get_most_ticketed_games self focus
  | Call_get_most_recent_tickets count offset => get_most_recent_tickets self count offset
  | Call_get_game_ticket_stats game focus depth => get_game_ticket_stats self game focus depth
  | Call_get_developer_ticket_stats username ulid => get_developer_ticket_stats self username ulid
  | Call_get_achievement_ticket_stats achievement => get_achievement_ticket_stats self achievement
  end.

(** *** Notions used to state the properties *)

(** A token that consists only of digits: at least one character, every
    one of them a digit. *)
Definition digits_only (tok : pystr) : Prop :=
  tok <> [] /\ forall c, In c tok -> Py_UNICODE_ISDIGIT unicode_isdigit c = true.

(** A token made of whitespace only. *)
Definition whitespace_only (tok : pystr) : Prop :=
  tok <> [] /\ forall c, In c tok -> Py_UNICODE_ISSPACE unicode_isspace c = true.

(** A reference that is absent, or points to a dict of the heap. *)
Definition live (w : World) (o : option ref) : Prop :=
  forall p, o = Some p -> (p < length (heap w))%nat.

(** The contents of the dict behind an optional reference; nothing for
    an absent one. *)
Definition contents (w : World) (o : option ref) : dict :=
  match o with
  | None => []
  | Some p => match heap w !! p with
              | Some d => d
              | None => []
              end
  end.

(** The path of a URL: what comes before the first question mark. *)
Definition url_path (url : pystr) : pystr := hd [] (split 63 url).

Definition ends_with (s suffix : pystr) : Prop :=
  exists prefix, s = prefix ++ suffix.

(** The request a wrapper sends for [endpoint] with the query
    parameters [items]: the API key is merged in under ["y"], the
    timeout is the default one and no headers are passed. *)
Definition wrapper_request (self : RAClient) (endpoint : pystr)
    (items : dict) : Request :=
  mkRequest GET (_BASE_URL ++ endpoint)
            (dict_setitem (lit "y") (VStr (api_key self)) items) 30%Z None.

(** What a wrapper returns for the answer of the server. *)
Definition relayed (answer : option Response) : outcome JSON :=
  match answer with
  | None => Raise RequestException
  | Some r => match decoded r with
              | Some j => Return j
              | None => Raise JSONDecodeError
              end
  end.

(** A wrapper with no advisory and no validation, as [get_user_awards]
    or [get_game] are written. *)
Definition plain_wrapper (self : RAClient) (endpoint : pystr)
    (items : dict) : M JSON :=
  params <- new_dict items ;;
  result <- _call_api self (Passed (Some endpoint))
              (Passed (Some params)) Omitted Omitted ;;
  json result.

(** The advisory a call emits, if it is one of the superseded three. *)
Definition advisory_of (c : call) : list Advisory :=
  match c with
  | Call_get_user_progress _ _ => [mkAdvisory user_progress_advisory Warning]
  | Call_get_user_summary _ _ _ => [mkAdvisory user_summary_advisory Warning]
  | Call_get_user_completed_games _ =>
      [mkAdvisory user_completed_games_advisory DeprecationWarning]
  | _ => []
  end.

Definition with_advisories (w : World) (a : list Advisory) : World :=
  mkWorld (heap w) (sent w) (advisories w ++ a) (today w).

(** A call that passes a value outside the enumeration of one of its
    parameters, with the message of the check that refuses it. *)
Inductive out_of_enumeration : call -> string -> Prop :=
| bad_awards user game awards :
    ~ In awards [0; 1]%Z ->
    out_of_enumeration
      (Call_get_game_info_and_user_progress user game (Passed awards))
      "Invalid awards value. Must be 0 or 1."
| bad_set_requests_list_type user list_type :
    ~ In list_type [0; 1]%Z ->
    out_of_enumeration
      (Call_get_user_set_requests user (Passed list_type))
      "Invalid list type. Must be 0 or 1."
| bad_extended_set_level game set_level :
    ~ In set_level [3; 5]%Z ->
    out_of_enumeration
      (Call_get_game_extended game (Passed set_level))
      "Invalid set type selected. Must be 3 or 5."
| bad_achievement_type game achievement_type set_level :
    ~ In achievement_type [0; 1]%Z ->
    out_of_enumeration
      (Call_get_achievement_distribution game (Passed achievement_type) set_level)
      "Invalid achievement type. Must be 0 or 1."
| bad_distribution_set_level game achievement_type set_level :
    In (arg_default 0%Z achievement_type) [0; 1]%Z ->
    ~ In set_level [3; 5]%Z ->
    out_of_enumeration
      (Call_get_achievement_distribution game achievement_type (Passed set_level))
      "Invalid set type selected. Must be 3 or 5."
| bad_rank_list_type game list_type :
    ~ In list_type [0; 1]%Z ->
    out_of_enumeration
      (Call_get_game_rank_and_score game (Passed list_type))
      "Invalid list type. Must be 0 or 1."
| bad_has_cheevos system has_cheevos hashes :
    ~ In has_cheevos [0; 1]%Z ->
    out_of_enumeration
      (Call_get_game_list system (Passed has_cheevos) hashes)
      "Invalid has_cheevos value. Must be 0 or 1."
| bad_hashes system has_cheevos hashes :
    In (arg_default 0%Z has_cheevos) [0; 1]%Z ->
    ~ In hashes [0; 1]%Z ->
    out_of_enumeration
      (Call_get_game_list system has_cheevos (Passed hashes))
      "Invalid hashes value. Must be 0 or 1."
| bad_target game target count offset sort :
    ~ In target [1; 2; 3]%Z ->
    out_of_enumeration
      (Call_get_comments game target count offset sort)
      "Invalid target type. Must be 1 (game), 2 (achievement), or 3 (user/ulid)."
| bad_sort game target count offset sort :
    In target [1; 2; 3]%Z ->
    ~ In sort [lit "submitted"; lit "-submitted"] ->
    out_of_enumeration
      (Call_get_comments game target count offset (Passed sort))
      "Invalid sort order. Must be 'submitted' or '-submitted'."
| bad_award_kind date_arg offset count kind :
    ~ In kind [lit "beaten-softcore"; lit "beaten-hardcore";
               lit "completed"; lit "mastered"] ->
    out_of_enumeration
      (Call_get_recent_game_awards date_arg offset count (Passed (Some kind)))
      "Invalid kind value. Must be one of 'beaten-softcore', 'beaten-hardcore', 'completed', or 'mastered'."
| bad_claim_kind kind :
    ~ In kind [1; 2; 3]%Z ->
    out_of_enumeration
      (Call_get_inactive_claims (Passed kind))
      "Invalid kind value. Must be 1 (completed), 2 (dropped) or 3 (expired)."
| bad_focus game focus depth :
    ~ In focus [3; 5]%Z ->
    out_of_enumeration
      (Call_get_game_ticket_stats game (Passed focus) depth)
      "Invalid focus value. Must be 3 (official) or 5 (unofficial).".

(** A computation that emits no advisory. *)
Definition quiet {A} (m : M A) : Prop :=
  forall w, advisories (snd (m w)) = advisories w.








(** A [kind] argument that [get_recent_game_awards] accepts: none, or one
    of the four kinds of award. *)
Definition kind_accepted (kind : arg (option pystr)) : Prop :=
  match arg_default None kind with
  | None => True
  | Some k => In k [lit "beaten-softcore"; lit "beaten-hardcore";
                    lit "completed"; lit "mastered"]
  end.

(** What [is_valid_game_csv] asks of one piece of the string. *)
Definition piece_ok (part : pystr) : bool :=
  negb (truthy part) ||
  isdigit unicode_isdigit (strip unicode_isspace part).

(** Why a wrapper may refuse a call before doing anything: a value outside
    an enumeration, a game argument that is not a CSV of numbers, or the
    date that [get_user_achievements_earned_on_day] requires. *)
Definition refusal_reason (self : RAClient) (c : call) (e : exn) : Prop :=
  match e with
  | ValueError msg =>
      out_of_enumeration c msg \/
      exists user game,
        c = Call_get_user_progress user game /\
        is_valid_game_csv self game = false /\
        msg = "Invalid game ID or CSV format"%string
  | TypeError name =>
      name = "date"%string /\
      exists user, c = Call_get_user_achievements_earned_on_day user Omitted
  | _ => False
  end.

(** *** Concrete instances for the examples *)

(** Unicode tables with nothing beyond ASCII. *)
Definition ascii_only (c : N) : bool := false.

(** A server that answers every request with the JSON document [null],
    and one that is unreachable. *)
Definition null_server (earlier : list Request) (rq : Request) : option Response :=
  Some (mkResponse 200 (lit "null") (Some JNull)).

Definition unreachable_server (earlier : list Request) (rq : Request) :
    option Response := None.


Definition world0 : World := mkWorld [] [] [] (mkDate 2026 11 4).

(** A world whose heap holds one caller-made dict that already binds
    ["y"]. *)
Definition world1 : World :=
  mkWorld [[(lit "y", VStr (lit "mine")); (lit "i", VInt 10)]] [] []
          (mkDate 2026 11 4).

(** A second client, with a key of its own. *)
Definition client_other : RAClient := mkRAClient (lit "zzz").

(** [RAClient("abc123")]. *)
Definition client_abc123 : RAClient := mkRAClient (lit "abc123").

(** ** Facts about the string operations *)

Lemma truthy_true (s : pystr) : truthy s = true <-> s <> [].
Proof. destruct s; simpl; split; congruence. Qed.

Lemma split_not_nil (sep : N) (s : pystr) : split sep s <> [].
Proof.
  destruct s as [|c s]; simpl; [discriminate|].
  destruct (c =? sep); [discriminate|].
  destruct (split sep s); discriminate.
Qed.

(** Splitting on both sides of a separator. *)
Lemma split_app_sep (sep : N) (a b : pystr) :
  split sep (a ++ sep :: b) = split sep a ++ split sep b.
Proof.
  induction a as [|c a IH]; simpl.
  - now rewrite N.eqb_refl.
  - destruct (c =? sep); [now rewrite IH|].
    rewrite IH. pose proof (split_not_nil sep a) as Hne.
    destruct (split sep a); [congruence | reflexivity].
Qed.

(** A string without the separator is its own single piece. *)
Lemma split_without_sep (sep : N) (s : pystr) :
  ~ In sep s -> split sep s = [s].
Proof.
  induction s as [|c s IH]; simpl; intros Hnot; [reflexivity|].
  destruct (N.eqb_spec c sep) as [->|_]; [tauto|].
  rewrite IH; tauto.
Qed.

(** [split] loses nothing: joining the pieces gives the string back. *)
Lemma join_split (sep : N) (s : pystr) : join sep (split sep s) = s.
Proof.
  induction s as [|c s IH]; simpl; [reflexivity|].
  pose proof (split_not_nil sep s) as Hne.
  destruct (N.eqb_spec c sep) as [->|_];
    destruct (split sep s) as [|tok toks] eqn:E; try congruence.
  - change (sep :: join sep (tok :: toks) = sep :: s). now rewrite IH.
  - destruct toks; simpl in *; now rewrite IH.
Qed.

(** No piece contains the separator. *)
Lemma split_pieces_without_sep (sep : N) (s tok : pystr) :
  In tok (split sep s) -> ~ In sep tok.
Proof.
  revert tok. induction s as [|c s IH]; simpl; intros tok Hin.
  - destruct Hin as [<-|[]]. intros [].
  - destruct (N.eqb_spec c sep) as [->|Hne].
    + destruct Hin as [<-|Hin]; [intros []|now apply IH].
    + destruct (split sep s) as [|t ts].
      * destruct Hin as [<-|[]]. intros [Heq|[]]. congruence.
      * destruct Hin as [<-|Hin].
        -- intros [Heq|Hin]; [congruence|]. apply (IH t); simpl; tauto.
        -- apply IH. simpl. tauto.
Qed.

(** [lstrip] removes a run of whitespace from the front, and what is
    left does not start with whitespace. *)
Lemma lstrip_spec (s : pystr) :
  exists l, s = l ++ lstrip unicode_isspace s /\
            forallb (Py_UNICODE_ISSPACE unicode_isspace) l = true /\
            match lstrip unicode_isspace s with
            | [] => True
            | c :: _ => Py_UNICODE_ISSPACE unicode_isspace c = false
            end.
Proof.
  induction s as [|c s (l & Heq & Hl & Hhd)]; simpl.
  - exists []. auto.
  - destruct (Py_UNICODE_ISSPACE unicode_isspace c) eqn:Hc.
    + exists (c :: l). simpl. rewrite Hc, Hl. simpl. split; [now f_equal|auto].
    + exists []. simpl. auto.
Qed.

(** [rstrip] removes a run of whitespace from the back, and what is
    left does not end with whitespace. *)
Lemma rstrip_spec (s : pystr) :
  exists r, s = rstrip unicode_isspace s ++ r /\
            forallb (Py_UNICODE_ISSPACE unicode_isspace) r = true /\
            match rev (rstrip unicode_isspace s) with
            | [] => True
            | c :: _ => Py_UNICODE_ISSPACE unicode_isspace c = false
            end.
Proof.
  induction s as [|c s (r & Heq & Hr & Hlast)]; simpl.
  - exists []. auto.
  - destruct (rstrip unicode_isspace s) as [|c' t] eqn:Hrs.
    + simpl in Heq. subst r.
      destruct (Py_UNICODE_ISSPACE unicode_isspace c) eqn:Hc.
      * exists (c :: s). simpl. rewrite Hc, Hr. auto.
      * exists s. simpl. auto.
    + exists r. split; [simpl; now f_equal|]. split; [assumption|].
      simpl in *. destruct (rev t ++ [c']) eqn:Hrev; [|now simpl].
      destruct (rev t); discriminate.
Qed.

(** A string of whitespace strips to the empty string. *)
Lemma lstrip_whitespace (s : pystr) :
  (forall c, In c s -> Py_UNICODE_ISSPACE unicode_isspace c = true) ->
  lstrip unicode_isspace s = [].
Proof.
  induction s as [|c s IH]; simpl; intros Hall; [reflexivity|].
  rewrite (Hall c) by tauto. apply IH. intros; apply Hall; tauto.
Qed.

(** A string that starts with a non-blank character keeps it. *)
Lemma strip_keeps_head (c : N) (s : pystr) :
  Py_UNICODE_ISSPACE unicode_isspace c = false ->
  exists r, strip unicode_isspace (c :: s) = c :: r.
Proof.
  intros Hc. unfold strip. simpl. rewrite Hc. simpl.
  destruct (rstrip unicode_isspace s) as [|c' t].
  - rewrite Hc. now exists [].
  - now exists (c' :: t).
Qed.

Lemma isdigit_digits_only (tok : pystr) :
  isdigit unicode_isdigit tok = true <-> digits_only tok.
Proof.
  unfold isdigit, digits_only.
  rewrite andb_true_iff, truthy_true, forallb_forall. tauto.
Qed.

(** The decimal digits of a number are between ["0"] and ["9"]. *)
Lemma digits_of_uint_range (d : Decimal.uint) (c : N) :
  In c (digits_of_uint d) -> 48 <= c <= 57.
Proof.
  induction d; simpl; intros Hin; try tauto;
    (destruct Hin as [<-|Hin]; [lia | now apply IHd]).
Qed.

Lemma str_of_int_negative (n : Z) :
  (n < 0)%Z -> exists ds, str_of_int n = 45 :: ds /\
                          forall c, In c ds -> 48 <= c <= 57.
Proof.
  intros Hn. destruct n as [|p|p]; try lia.
  unfold str_of_int. simpl. eexists. split; [reflexivity|].
  intros c. apply digits_of_uint_range.
Qed.

(** ** The CSV-or-integer validator *)

Lemma is_valid_game_csv_str (self : RAClient) (s : pystr) :
  is_valid_game_csv self (VStr s) =
  forallb (fun part => isdigit unicode_isdigit (strip unicode_isspace part))
          (List.filter truthy (split 44 s)).
Proof. reflexivity. Qed.

(** One bad piece is enough to fail the whole check. *)
Lemma forallb_filter_false {A} (keep f : A -> bool) (l : list A) (x : A) :
  In x l -> keep x = true -> f x = false ->
  forallb f (List.filter keep l) = false.
Proof.
  intros Hin Hkeep Hf.
  destruct (forallb f (List.filter keep l)) eqn:Hall; [|reflexivity].
  rewrite forallb_forall in Hall.
  rewrite <- Hf. symmetry. apply Hall. apply List.filter_In. tauto.
Qed.

(** C1.  [is_valid_game_csv] accepts every integer (every value that
    [isinstance(value, int)] accepts).  It accepts a string exactly when
    every non-empty piece between commas, stripped of the whitespace
    around it, consists only of digits: empty pieces are skipped, so a
    trailing comma or a doubled comma changes nothing, while a piece
    whose stripped form holds a character that is not a digit, or a
    piece of whitespace only, makes it answer false.  It rejects every
    value that is neither an integer nor a string. *)
Theorem is_valid_game_csv_spec (self : RAClient) :
  (forall v, isinstance_int v = true -> is_valid_game_csv self v = true) /\
  (forall n, is_valid_game_csv self (VInt n) = true) /\
  (forall s,
      is_valid_game_csv self (VStr s) = true <->
      forall tok, In tok (split 44 s) -> tok <> [] ->
                  digits_only (strip unicode_isspace tok)) /\
  (forall s,
      is_valid_game_csv self (VStr (s ++ lit ",")) =
      is_valid_game_csv self (VStr s)) /\
  (forall a b,
      is_valid_game_csv self (VStr (a ++ lit ",," ++ b)) =
      is_valid_game_csv self (VStr (a ++ lit "," ++ b))) /\
  (forall s tok c,
      In tok (split 44 s) -> In c (strip unicode_isspace tok) ->
      Py_UNICODE_ISDIGIT unicode_isdigit c = false ->
      is_valid_game_csv self (VStr s) = false) /\
  (forall s tok,
      In tok (split 44 s) -> whitespace_only tok ->
      is_valid_game_csv self (VStr s) = false) /\
  (forall v, isinstance_int v = false -> isinstance_str v = false ->
             is_valid_game_csv self v = false).
Proof.
  split; [|split; [|split; [|split; [|split; [|split; [|split]]]]]].
  - intros v Hint. unfold is_valid_game_csv. now rewrite Hint.
  - reflexivity.
  - intros s. split.
    + intros Hall tok Hin Hne.
      rewrite is_valid_game_csv_str, forallb_forall in Hall.
      apply isdigit_digits_only, Hall, List.filter_In.
      split; [assumption | now apply truthy_true].
    + intros Hall. rewrite is_valid_game_csv_str, forallb_forall.
      intros tok Hin. apply List.filter_In in Hin as [Hin Hne].
      apply isdigit_digits_only, Hall; [assumption | now apply truthy_true].
  - intros s. rewrite !is_valid_game_csv_str.
    change (lit ",") with [44]. rewrite split_app_sep. simpl.
    rewrite List.filter_app. simpl. now rewrite app_nil_r.
  - intros a b. rewrite !is_valid_game_csv_str.
    change (lit ",," ++ b) with (44 :: 44 :: b).
    change (lit "," ++ b) with (44 :: b).
    rewrite !split_app_sep. simpl. now rewrite !List.filter_app.
  - intros s tok c Hin Hc Hnd. rewrite is_valid_game_csv_str.
    apply forallb_filter_false with (x := tok); [assumption| |].
    + apply truthy_true. intros ->. destruct Hc.
    + destruct (isdigit unicode_isdigit (strip unicode_isspace tok)) eqn:Hd;
        [|reflexivity].
      apply isdigit_digits_only in Hd as [_ Hd]. rewrite (Hd c Hc) in Hnd.
      discriminate.
  - intros s tok Hin [Hne Hws]. rewrite is_valid_game_csv_str.
    apply forallb_filter_false with (x := tok);
      [assumption | now apply truthy_true |].
    unfold strip. now rewrite lstrip_whitespace.
  - intros v Hint Hstr. unfold is_valid_game_csv. rewrite Hint.
    destruct v; try reflexivity. discriminate.
Qed.

(** C10.  A negative integer is accepted as such, and refused once it is
    written out as a string: the minus sign is neither whitespace nor a
    digit. *)
Theorem negative_int_asymmetry (self : RAClient) (n : Z) :
  (n < 0)%Z ->
  is_valid_game_csv self (VInt n) = true /\
  is_valid_game_csv self (VStr (str_of_int n)) = false.
Proof.
  intros Hn. split; [reflexivity|].
  destruct (str_of_int_negative n Hn) as (ds & -> & Hds).
  rewrite is_valid_game_csv_str, split_without_sep.
  - simpl List.filter. unfold forallb.
    destruct (strip_keeps_head 45 ds eq_refl) as [r ->].
    reflexivity.
  - intros [Heq|Hin]; [discriminate|]. apply Hds in Hin. lia.
Qed.

(** ** Dicts and the heap *)

Lemma pystr_eqb_refl (k : pystr) : pystr_eqb k k = true.
Proof. unfold pystr_eqb. now apply bool_decide_eq_true. Qed.

Lemma pystr_eqb_neq (k k' : pystr) : k <> k' -> pystr_eqb k k' = false.
Proof. unfold pystr_eqb. intros. now apply bool_decide_eq_false. Qed.

Lemma dict_get_setitem_eq (k : pystr) (v : value) (d : dict) :
  dict_get k (dict_setitem k v d) = Some v.
Proof.
  induction d as [|[k' v'] d IH]; simpl.
  - now rewrite pystr_eqb_refl.
  - destruct (pystr_eqb k k') eqn:E; simpl; now rewrite E.
Qed.

Lemma dict_get_setitem_ne (k k' : pystr) (v : value) (d : dict) :
  k' <> k -> dict_get k' (dict_setitem k v d) = dict_get k' d.
Proof.
  intros Hne. induction d as [|[k0 v0] d IH]; simpl.
  - now rewrite pystr_eqb_neq.
  - destruct (pystr_eqb k k0) eqn:E; simpl.
    + apply bool_decide_eq_true in E. subst k0.
      now rewrite pystr_eqb_neq.
    + now rewrite IH.
Qed.

(** The items under the other keys stay as they are, in their order. *)
Lemma dict_setitem_others (k : pystr) (v : value) (d : dict) :
  List.filter (fun kv => negb (pystr_eqb k (fst kv))) (dict_setitem k v d) =
  List.filter (fun kv => negb (pystr_eqb k (fst kv))) d.
Proof.
  induction d as [|[k' v'] d IH]; simpl.
  - now rewrite pystr_eqb_refl.
  - destruct (pystr_eqb k k') eqn:E; simpl; rewrite E; simpl;
      [reflexivity | now rewrite IH].
Qed.

Lemma lookup_fresh (h : list dict) (d : dict) :
  (h ++ [d]) !! length h = Some d.
Proof. induction h; simpl; auto. Qed.

Lemma insert_fresh (h : list dict) (d d' : dict) :
  <[length h := d']> (h ++ [d]) = h ++ [d'].
Proof. induction h; simpl; [reflexivity | now f_equal]. Qed.

Lemma live_lookup (w : World) (p : ref) :
  live w (Some p) -> heap w !! p = Some (contents w (Some p)).
Proof.
  intros Hlive. specialize (Hlive p eq_refl). simpl.
  destruct (heap w !! p) eqn:E; [reflexivity|].
  apply lookup_ge_None in E. lia.
Qed.

(** ** The dispatcher *)

Lemma url_params_some (self : RAClient) (p : ref) (d : dict) (w : World) :
  heap w !! p = Some d ->
  url_params self (Some p) w =
  (Return p,
   mkWorld (<[p := dict_setitem (lit "y") (VStr (api_key self)) d]> (heap w))
           (sent w) (advisories w) (today w)).
Proof.
  intros Hp. unfold url_params, bind, ret, update_at. now rewrite Hp.
Qed.

Lemma url_params_none (self : RAClient) (w : World) :
  url_params self None w =
  (Return (length (heap w)),
   mkWorld (heap w ++ [[(lit "y", VStr (api_key self))]])
           (sent w) (advisories w) (today w)).
Proof.
  unfold url_params, bind, new_dict, update_at. simpl.
  now rewrite lookup_fresh, insert_fresh.
Qed.

(** Where [url_params] leaves the merged dict, for either kind of
    argument. *)
Lemma url_params_merged (self : RAClient) (o : option ref) (w : World) :
  live w o ->
  exists p w',
    url_params self o w = (Return p, w') /\
    heap w' !! p =
      Some (dict_setitem (lit "y") (VStr (api_key self)) (contents w o)) /\
    (length (heap w) <= length (heap w'))%nat /\
    sent w' = sent w /\ advisories w' = advisories w /\ today w' = today w.
Proof.
  intros Hlive. destruct o as [p|].
  - pose proof (live_lookup w p Hlive) as Hp.
    exists p. eexists. split; [apply url_params_some, Hp|]. simpl.
    rewrite list_lookup_insert_eq by (now apply Hlive).
    rewrite length_insert. auto.
  - exists (length (heap w)). eexists. split; [apply url_params_none|].
    simpl. rewrite lookup_fresh, length_app. simpl. repeat split; lia.
Qed.

Lemma requests_get_run (url : pystr) (p : ref) (timeout : Z)
    (headers : option ref) (d : dict) (hd : option dict) (w : World) :
  heap w !! p = Some d ->
  read_headers headers w = (Return hd, w) ->
  requests_get url p timeout headers w =
  (match server (sent w) (mkRequest GET url d timeout hd) with
   | Some r => Return (ObjResponse r)
   | None => Raise RequestException
   end,
   mkWorld (heap w) (sent w ++ [mkRequest GET url d timeout hd])
           (advisories w) (today w)).
Proof.
  intros Hp Hh. unfold requests_get, bind, read_dict. cbv beta.
  rewrite Hp, Hh. destruct (server _ _); reflexivity.
Qed.

(** What one call of the dispatcher does: one GET, and the response
    object as it came. *)
Lemma call_api_run (self : RAClient) (endpoint : arg (option pystr))
    (params headers : arg (option ref)) (timeout : arg Z) (w : World) :
  live w (arg_default None params) ->
  live w (arg_default None headers) ->
  exists rq w',
    _call_api self endpoint params timeout headers w =
      (match server (sent w) rq with
       | Some r => Return (ObjResponse r)
       | None => Raise RequestException
       end, w') /\
    sent w' = sent w ++ [rq] /\
    advisories w' = advisories w /\
    req_method rq = GET /\
    req_url rq = _BASE_URL ++ match arg_default None endpoint with
                              | None => lit ""
                              | Some e => e
                              end /\
    req_params rq =
      dict_setitem (lit "y") (VStr (api_key self))
                   (contents w (arg_default None params)) /\
    req_timeout rq = arg_default 30%Z timeout.
Proof.
  intros Hp Hh.
  destruct (url_params_merged self _ w Hp)
    as (p & w1 & Hrun & Hlook & Hlen & Hsent & Hadv & _).
  assert (Hhd : exists hd, read_headers (arg_default None headers) w1 =
                           (Return hd, w1)).
  { destruct (arg_default None headers) as [h|]; [|now exists None].
    assert (Hlt : (h < length (heap w1))%nat)
      by (specialize (Hh h eq_refl); lia).
    apply lookup_lt_is_Some in Hlt as [hd Hhd]. exists (Some hd).
    unfold read_headers, bind, read_dict. cbv beta. now rewrite Hhd. }
  destruct Hhd as [hd Hhd].
  unfold _call_api, bind. rewrite Hrun. cbv beta iota.
  rewrite (requests_get_run _ p _ _ _ hd w1 Hlook Hhd), Hsent.
  match goal with |- context [server (sent w) ?r] => exists r end.
  eexists. split.
  - unfold ret. destruct (server _ _); reflexivity.
  - simpl. rewrite Hadv. auto 10.
Qed.

(** C2.  Whatever dict the caller hands to the dispatcher (none, an
    empty one, one that binds ["y"] already), exactly one request goes
    out, and its query parameters are the caller's with ["y"] set to the
    API key of the client: the key is present, and it is the client's. *)
Theorem call_api_sends_auth (self : RAClient) (endpoint : arg (option pystr))
    (params headers : arg (option ref)) (timeout : arg Z) (w : World) :
  live w (arg_default None params) ->
  live w (arg_default None headers) ->
  exists rq,
    sent (snd (_call_api self endpoint params timeout headers w)) =
      sent w ++ [rq] /\
    req_params rq =
      dict_setitem (lit "y") (VStr (api_key self))
                   (contents w (arg_default None params)) /\
    dict_get (lit "y") (req_params rq) = Some (VStr (api_key self)) /\
    forall k, k <> lit "y" ->
      dict_get k (req_params rq) =
      dict_get k (contents w (arg_default None params)).
Proof.
  intros Hp Hh.
  destruct (call_api_run self endpoint params headers timeout w Hp Hh)
    as (rq & w' & Hrun & Hsent & _ & _ & _ & Hparams & _).
  exists rq. rewrite Hrun. simpl. rewrite Hparams.
  split; [assumption|]. split; [reflexivity|].
  split; [apply dict_get_setitem_eq|].
  intros k Hk. now apply dict_get_setitem_ne.
Qed.

(** C9.  [url_params] works on the caller's own dict: it returns the
    reference it was given, allocates nothing, and the dict behind that
    reference now binds ["y"] to the API key while all its other items
    are as before; the other dicts of the heap are untouched. *)
Theorem url_params_in_place (self : RAClient) (p : ref) (d : dict) (w : World) :
  heap w !! p = Some d ->
  exists d',
    fst (url_params self (Some p) w) = Return p /\
    heap (snd (url_params self (Some p) w)) !! p = Some d' /\
    dict_get (lit "y") d' = Some (VStr (api_key self)) /\
    (forall k, k <> lit "y" -> dict_get k d' = dict_get k d) /\
    List.filter (fun kv => negb (pystr_eqb (lit "y") (fst kv))) d' =
      List.filter (fun kv => negb (pystr_eqb (lit "y") (fst kv))) d /\
    length (heap (snd (url_params self (Some p) w))) = length (heap w) /\
    (forall q, q <> p ->
       heap (snd (url_params self (Some p) w)) !! q = heap w !! q).
Proof.
  intros Hp. rewrite (url_params_some self p d w Hp). simpl.
  exists (dict_setitem (lit "y") (VStr (api_key self)) d).
  split; [reflexivity|].
  split; [apply list_lookup_insert_eq; now apply lookup_lt_Some in Hp|].
  split; [apply dict_get_setitem_eq|].
  split; [intros k Hk; now apply dict_get_setitem_ne|].
  split; [apply dict_setitem_others|].
  split; [apply length_insert|].
  intros q Hq. now apply list_lookup_insert_ne.
Qed.

(** ** The endpoint wrappers *)

(** One run of a wrapper body: a new dict, one request, the decoded
    answer. *)
Lemma plain_wrapper_run (self : RAClient) (endpoint : pystr) (items : dict)
    (w : World) :
  plain_wrapper self endpoint items w =
  (relayed (server (sent w) (wrapper_request self endpoint items)),
   mkWorld (heap w ++ [req_params (wrapper_request self endpoint items)])
           (sent w ++ [wrapper_request self endpoint items])
           (advisories w) (today w)).
Proof.
  unfold plain_wrapper, _call_api, bind, new_dict. cbv beta iota.
  simpl arg_default.
  rewrite (url_params_some self (length (heap w)) items)
    by (simpl; apply lookup_fresh).
  cbv beta iota. simpl heap. rewrite insert_fresh.
  erewrite requests_get_run; [|simpl; apply lookup_fresh|reflexivity].
  simpl. unfold wrapper_request, relayed, json, ret, raise.
  destruct (server _ _) as [r|]; [|reflexivity].
  destruct (decoded r); reflexivity.
Qed.

Lemma int_in_spec (x : Z) (l : list Z) : int_in x l = true <-> In x l.
Proof.
  unfold int_in. rewrite existsb_exists. split.
  - intros (y & Hin & Heq). apply Z.eqb_eq in Heq. now subst.
  - intros Hin. exists x. split; [assumption | apply Z.eqb_refl].
Qed.

Lemma int_in_false (x : Z) (l : list Z) : ~ In x l -> int_in x l = false.
Proof.
  intros Hnot. destruct (int_in x l) eqn:E; [|reflexivity].
  now apply int_in_spec in E.
Qed.

Lemma str_in_spec (x : pystr) (l : list pystr) : str_in x l = true <-> In x l.
Proof.
  unfold str_in, pystr_eqb. rewrite existsb_exists. split.
  - intros (y & Hin & Heq). apply bool_decide_eq_true in Heq. now subst.
  - intros Hin. exists x. split; [assumption | now apply bool_decide_eq_true].
Qed.

Lemma str_in_false (x : pystr) (l : list pystr) : ~ In x l -> str_in x l = false.
Proof.
  intros Hnot. destruct (str_in x l) eqn:E; [|reflexivity].
  now apply str_in_spec in E.
Qed.

(** C5.  [RAClient("abc123").get_game(10)] sends exactly one request, a
    GET whose URL is the base URL followed by [API_GetGame.php?], so
    that its path ends in [API_GetGame.php], and whose query parameters
    are [i = 10] and [y = "abc123"]; this does not depend on what the
    server answers. *)
Theorem get_game_abc123 (w : World) :
  exists rq,
    sent (snd (get_game client_abc123 10%Z w)) = sent w ++ [rq] /\
    req_method rq = GET /\
    req_url rq = lit "https://retroachievements.org/API/API_GetGame.php?" /\
    ends_with (url_path (req_url rq)) (lit "API_GetGame.php") /\
    req_params rq = [(lit "i", VInt 10); (lit "y", VStr (lit "abc123"))].
Proof.
  change (get_game client_abc123 10%Z)
    with (plain_wrapper client_abc123 (lit "API_GetGame.php?")
                        [(lit "i", VInt 10)]).
  rewrite plain_wrapper_run. simpl snd. simpl sent.
  eexists. split; [reflexivity|]. split; [reflexivity|].
  split; [reflexivity|]. split; [|reflexivity].
  exists (lit "https://retroachievements.org/API/"). reflexivity.
Qed.

(** C6.  [get_comments] with target 4 raises [ValueError] and leaves
    the world as it was, so nothing is sent; with target 2 and sort
    ["submitted"], count and offset left at their defaults, it sends one
    request whose query parameters are [i], [t = 2], [c = 100],
    [o = 0], [sort = "submitted"], followed by the API key. *)
Theorem get_comments_scenarios (self : RAClient) (game : Z) (w : World) :
  (forall count offset sort,
      get_comments self game 4%Z count offset sort w =
      (Raise (ValueError "Invalid target type. Must be 1 (game), 2 (achievement), or 3 (user/ulid)."),
       w)) /\
  (exists rq,
      sent (snd (get_comments self game 2%Z Omitted Omitted
                              (Passed (lit "submitted")) w)) =
        sent w ++ [rq] /\
      req_params rq =
        [(lit "i", VInt game); (lit "t", VInt 2); (lit "c", VInt 100);
         (lit "o", VInt 0); (lit "sort", VStr (lit "submitted"))] ++
        [(lit "y", VStr (api_key self))]).
Proof.
  split.
  - reflexivity.
  - change (get_comments self game 2%Z Omitted Omitted (Passed (lit "submitted")))
      with (plain_wrapper self (lit "API_GetComments.php?")
              [(lit "i", VInt game); (lit "t", VInt 2); (lit "c", VInt 100);
               (lit "o", VInt 0); (lit "sort", VStr (lit "submitted"))]).
    rewrite plain_wrapper_run. simpl snd. simpl sent.
    eexists. split; reflexivity.
Qed.

(** The thirteen checks that the wrappers have.  A wrapper called with a
    value that one of them refuses raises [ValueError] with the message
    of that check, which names the legal values, and leaves the world as
    it was: no request is sent, no dict is made. *)
Theorem enumerated_values_checked (self : RAClient) (c : call)
    (msg : string) (w : World) :
  out_of_enumeration c msg ->
  invoke self c w = (Raise (ValueError msg), w) /\
  sent (snd (invoke self c w)) = sent w.
Proof.
  intros Hbad.
  assert (Hrun : invoke self c w = (Raise (ValueError msg), w)).
  { destruct Hbad; simpl invoke;
      repeat match goal with
             | H : ~ In _ _ |- _ => apply int_in_false in H
             | H : ~ In _ _ |- _ => apply str_in_false in H
             | H : In _ _ |- _ => apply int_in_spec in H
             end.
    - unfold get_game_info_and_user_progress. simpl arg_default.
      unfold bind at 1. now rewrite H.
    - unfold get_user_set_requests. simpl arg_default.
      unfold bind at 1. now rewrite H.
    - unfold get_game_extended. simpl arg_default.
      unfold bind at 1. now rewrite H.
    - unfold get_achievement_distribution. simpl arg_default.
      unfold bind at 1. now rewrite H.
    - unfold get_achievement_distribution. simpl arg_default.
      unfold bind at 1. rewrite H. cbv beta iota delta [ret negb].
      unfold bind at 1. now rewrite H0.
    - unfold get_game_rank_and_score. simpl arg_default.
      unfold bind at 1. now rewrite H.
    - unfold get_game_list. simpl arg_default.
      unfold bind at 1. now rewrite H.
    - unfold get_game_list. simpl arg_default.
      unfold bind at 1. rewrite H. cbv beta iota delta [ret negb].
      unfold bind at 1. now rewrite H0.
    - unfold get_comments. unfold bind at 1. now rewrite H.
    - unfold get_comments. simpl arg_default.
      unfold bind at 1. rewrite H. cbv beta iota delta [ret negb].
      unfold bind at 1. now rewrite H0.
    - unfold get_recent_game_awards. simpl arg_default.
      destruct (arg_default None date_arg);
        unfold bind, date_today, ret; cbv beta iota; now rewrite H.
    - unfold get_inactive_claims. simpl arg_default.
      unfold bind at 1. now rewrite H.
    - unfold get_game_ticket_stats. simpl arg_default.
      unfold bind at 1. now rewrite H. }
  split; [assumption | now rewrite Hrun].
Qed.

(** ** Advisories *)

Lemma quiet_ret {A} (a : A) : quiet (ret a).
Proof. intros w. reflexivity. Qed.

Lemma quiet_raise {A} (e : exn) : quiet (@raise A e).
Proof. intros w. reflexivity. Qed.

Lemma quiet_bind {A B} (m : M A) (k : A -> M B) :
  quiet m -> (forall a, quiet (k a)) -> quiet (bind m k).
Proof.
  intros Hm Hk w. unfold bind. specialize (Hm w).
  destruct (m w) as [[a|e] w1]; simpl in *; [|assumption].
  now rewrite Hk.
Qed.

Lemma quiet_new_dict (d : dict) : quiet (new_dict d).
Proof. intros w. reflexivity. Qed.

Lemma quiet_update_at (p : ref) (other : dict) : quiet (update_at p other).
Proof. intros w. unfold update_at. now destruct (heap w !! p). Qed.

Lemma quiet_read_dict (p : ref) : quiet (read_dict p).
Proof. intros w. unfold read_dict. now destruct (heap w !! p). Qed.

Lemma quiet_date_today : quiet date_today.
Proof. intros w. reflexivity. Qed.

Lemma quiet_json (o : pyobject) : quiet (json o).
Proof. intros w. unfold json. destruct o as [r|j]; [|reflexivity]. now destruct (decoded r). Qed.

Create HintDb quiet.

#[local] Hint Resolve quiet_ret quiet_raise quiet_bind quiet_new_dict
  quiet_update_at quiet_read_dict quiet_date_today quiet_json : quiet.

Lemma quiet_read_headers (h : option ref) : quiet (read_headers h).
Proof. destruct h; simpl; auto with quiet. Qed.

Lemma quiet_url_params (self : RAClient) (o : option ref) :
  quiet (url_params self o).
Proof. unfold url_params. destruct o; auto 10 with quiet. Qed.

Lemma quiet_requests_get (url : pystr) (p : ref) (timeout : Z)
    (headers : option ref) : quiet (requests_get url p timeout headers).
Proof.
  unfold requests_get.
  apply quiet_bind; [apply quiet_read_dict|]. intros d.
  apply quiet_bind; [apply quiet_read_headers|]. intros h w.
  now destruct (server _ _).
Qed.

Lemma quiet_call_api (self : RAClient) (endpoint : arg (option pystr))
    (params headers : arg (option ref)) (timeout : arg Z) :
  quiet (_call_api self endpoint params timeout headers).
Proof.
  unfold _call_api.
  apply quiet_bind; [apply quiet_url_params|]. intros p.
  apply quiet_bind; [apply quiet_requests_get|]. auto with quiet.
Qed.

#[local] Hint Resolve quiet_call_api : quiet.




(** ** Dates *)





(** Before the year 1000 the year has fewer digits. *)
Example strftime_Ymd_year_999 :
  strftime_Ymd (mkDate 999 1 2) = lit "999-01-02".
Proof. reflexivity. Qed.

(** C7.  [get_recent_game_awards] called with no argument asks for the
    awards of the current day: its request carries [d] set to today's date
    in the [%Y-%m-%d] form.  [get_user_achievements_earned_on_day] does
    the same when [None] is passed for the date; called with no date
    argument it raises [TypeError] and sends nothing, since its signature
    gives [date] no default. *)
Theorem date_left_out (self : RAClient) (user : pystr) (w : World) :
  (exists rq,
      sent (snd (get_recent_game_awards self Omitted Omitted Omitted Omitted w)) =
        sent w ++ [rq] /\
      dict_get (lit "d") (req_params rq) = Some (VStr (strftime_Ymd (today w)))) /\
  (exists rq,
      sent (snd (get_user_achievements_earned_on_day self user (Passed None) w)) =
        sent w ++ [rq] /\
      dict_get (lit "d") (req_params rq) = Some (VStr (strftime_Ymd (today w)))) /\
  get_user_achievements_earned_on_day self user Omitted w =
    (Raise (TypeError "date"), w).
Proof.
  split; [|split; [|reflexivity]].
  - change (get_recent_game_awards self Omitted Omitted Omitted Omitted w)
      with (plain_wrapper self (lit "API_GetRecentGameAwards.php?")
              [(lit "d", VStr (strftime_Ymd (today w))); (lit "o", VInt 0);
               (lit "c", VInt 25); (lit "k", VNone)] w).
    rewrite plain_wrapper_run. eexists. split; reflexivity.
  - change (get_user_achievements_earned_on_day self user (Passed None) w)
      with (plain_wrapper self (lit "API_GetAchievementsEarnedOnDay.php?")
              [(lit "u", VStr user); (lit "d", VStr (strftime_Ymd (today w)))] w).
    rewrite plain_wrapper_run. eexists. split; reflexivity.
Qed.

(** ** The superseded endpoints *)

Lemma check_first {A} (b : bool) (e : exn) (m : M A) (w : World) :
  ((if b then raise e else ret tt) ;;; m) w =
  if b then (Raise e, w) else m w.
Proof. now destruct b. Qed.

Lemma warn_first {A} (message : string) (category : warning_category)
    (m : M A) (w : World) :
  (warn message category ;;; m) w =
  m (with_advisories w [mkAdvisory message category]).
Proof. reflexivity. Qed.



(** ** Examples *)

(** The strings of the docstring of [is_valid_game_csv].  The code accepts
    ["123,,456"], which the docstring lists among the invalid ones: the
    empty piece between the two commas is skipped. *)
Example is_valid_game_csv_docstring (self : RAClient) :
  List.map (is_valid_game_csv self)
           [VInt 12345; VStr (lit "12345"); VStr (lit "12345, 67890");
            VStr (lit "123, 456, 789"); VStr (lit "123a");
            VStr (lit "123,,456"); VStr (lit "123, "); VStr (lit "123, 456,")] =
  [true; true; true; true; false; true; false; true].
Proof. reflexivity. Qed.

Lemma relayed_not_value_error (answer : option Response) (msg : string) :
  relayed answer <> Raise (ValueError msg).
Proof.
  unfold relayed. destruct answer as [r|]; [|discriminate].
  destruct (decoded r); discriminate.
Qed.

(** C3.  Two documented sets of legal values have no check.  The
    docstring of [get_most_ticketed_games] says of [f] that it "Must be
    set to 1", and that of [get_game_ticket_stats] gives [d] as 0 or 1;
    whatever integer is passed for [focus] or for [depth], the wrapper
    raises no [ValueError] and sends its request with that value. *)
Theorem documented_values_unchecked (self : RAClient) (w : World) :
  (forall focus,
      sent (snd (get_most_ticketed_games self (Passed focus) w)) =
        sent w ++ [wrapper_request self (lit "API_GetTicketData.php?")
                                   [(lit "f", VInt focus)]] /\
      forall msg,
        fst (get_most_ticketed_games self (Passed focus) w) <>
        Raise (ValueError msg)) /\
  (forall game depth,
      sent (snd (get_game_ticket_stats self game Omitted (Passed depth) w)) =
        sent w ++ [wrapper_request self (lit "API_GetTicketData.php?")
                                   [(lit "g", VInt game); (lit "f", VInt 3);
                                    (lit "d", VInt depth)]] /\
      forall msg,
        fst (get_game_ticket_stats self game Omitted (Passed depth) w) <>
        Raise (ValueError msg)).
Proof.
  split.
  - intros focus.
    change (get_most_ticketed_games self (Passed focus))
      with (plain_wrapper self (lit "API_GetTicketData.php?")
                          [(lit "f", VInt focus)]).
    rewrite plain_wrapper_run. split; [reflexivity|].
    intros msg. apply relayed_not_value_error.
  - intros game depth.
    change (get_game_ticket_stats self game Omitted (Passed depth))
      with (plain_wrapper self (lit "API_GetTicketData.php?")
                          [(lit "g", VInt game); (lit "f", VInt 3);
                           (lit "d", VInt depth)]).
    rewrite plain_wrapper_run. split; [reflexivity|].
    intros msg. apply relayed_not_value_error.
Qed.

(** ** More on the validator *)

Lemma forallb_filter_implies {A} (keep f : A -> bool) (l : list A) :
  forallb f (List.filter keep l) = forallb (fun x => negb (keep x) || f x) l.
Proof.
  induction l as [|x l IH]; simpl; [reflexivity|].
  destruct (keep x); simpl; now rewrite IH.
Qed.

Lemma is_valid_game_csv_pieces (self : RAClient) (s : pystr) :
  is_valid_game_csv self (VStr s) = forallb piece_ok (split 44 s).
Proof. rewrite is_valid_game_csv_str. apply forallb_filter_implies. Qed.

(** Joining pieces that hold no separator and splitting again gives the
    pieces back. *)
Lemma split_join (sep : N) (parts : list pystr) :
  parts <> [] -> (forall t, In t parts -> ~ In sep t) ->
  split sep (join sep parts) = parts.
Proof.
  induction parts as [|p ps IH]; intros Hne Hfree; [congruence|].
  destruct ps as [|q ps].
  - simpl. apply split_without_sep, Hfree. now left.
  - change (join sep (p :: q :: ps)) with (p ++ sep :: join sep (q :: ps)).
    rewrite split_app_sep, IH, split_without_sep.
    + reflexivity.
    + apply Hfree. now left.
    + discriminate.
    + intros t Ht. apply Hfree. now right.
Qed.

Lemma rstrip_no_whitespace (s : pystr) :
  (forall c, In c s -> Py_UNICODE_ISSPACE unicode_isspace c = false) ->
  rstrip unicode_isspace s = s.
Proof.
  induction s as [|c s IH]; simpl; intros Hall; [reflexivity|].
  rewrite IH by (intros; apply Hall; tauto).
  destruct s; [|reflexivity]. rewrite (Hall c); tauto.
Qed.

Lemma strip_no_whitespace (s : pystr) :
  (forall c, In c s -> Py_UNICODE_ISSPACE unicode_isspace c = false) ->
  strip unicode_isspace s = s.
Proof.
  intros Hall. unfold strip.
  assert (Hl : lstrip unicode_isspace s = s).
  { destruct s as [|c s]; simpl; [reflexivity|]. rewrite (Hall c); simpl; tauto. }
  rewrite Hl. now apply rstrip_no_whitespace.
Qed.

Lemma ascii_digit_classes (c : N) :
  48 <= c <= 57 ->
  Py_UNICODE_ISSPACE unicode_isspace c = false /\
  Py_UNICODE_ISDIGIT unicode_isdigit c = true.
Proof.
  intros Hc. unfold Py_UNICODE_ISSPACE, Py_UNICODE_ISDIGIT.
  assert (Hlt : (c <? 128) = true) by (apply N.ltb_lt; lia). rewrite Hlt.
  unfold ascii_whitespace, ascii_digit.
  assert (H1 : (c <=? 13) = false) by (apply N.leb_gt; lia).
  assert (H2 : (c <=? 32) = false) by (apply N.leb_gt; lia).
  assert (H3 : (48 <=? c) = true) by (apply N.leb_le; lia).
  assert (H4 : (c <=? 57) = true) by (apply N.leb_le; lia).
  rewrite H1, H2, H3, H4. now rewrite !andb_false_r.
Qed.

Lemma digits_of_uint_nil (d : Decimal.uint) :
  digits_of_uint d = [] -> d = Decimal.Nil.
Proof. destruct d; simpl; congruence. Qed.

(** [str(n)] never holds a comma. *)
Lemma str_of_int_no_comma (n : Z) : ~ In 44 (str_of_int n).
Proof.
  unfold str_of_int. destruct (Z.to_int n) as [d|d]; simpl.
  - intros Hin. apply digits_of_uint_range in Hin. lia.
  - intros [Heq|Hin]; [discriminate|]. apply digits_of_uint_range in Hin. lia.
Qed.

(** The piece [str(n)] passes exactly when [n] is not negative. *)
Lemma piece_ok_str_of_int (n : Z) : piece_ok (str_of_int n) = (0 <=? n)%Z.
Proof.
  destruct (Z.leb_spec 0 n) as [Hpos|Hneg].
  - assert (Hd : exists d, str_of_int n = digits_of_uint d /\ d <> Decimal.Nil).
    { unfold str_of_int. destruct n as [|p|p]; try lia; simpl.
      - exists Decimal.zero. split; [reflexivity | discriminate].
      - exists (Pos.to_uint p). split; [reflexivity|].
        apply DecimalPos.Unsigned.to_uint_nonnil. }
    destruct Hd as (d & -> & Hnil). unfold piece_ok.
    rewrite strip_no_whitespace
      by (intros c Hc; now apply digits_of_uint_range, ascii_digit_classes in Hc).
    apply orb_true_iff. right. apply isdigit_digits_only. split.
    + intros Heq. now apply digits_of_uint_nil in Heq.
    + intros c Hc. now apply digits_of_uint_range, ascii_digit_classes in Hc.
  - destruct (str_of_int_negative n Hneg) as (ds & -> & _). unfold piece_ok.
    destruct (strip_keeps_head 45 ds eq_refl) as [r ->]. reflexivity.
Qed.

(** X1.  A comma glues two lists: the string [a,b] is accepted exactly
    when [a] and [b] both are, whatever commas they hold themselves. *)
Theorem is_valid_game_csv_comma (self : RAClient) (a b : pystr) :
  is_valid_game_csv self (VStr (a ++ lit "," ++ b)) =
  is_valid_game_csv self (VStr a) && is_valid_game_csv self (VStr b).
Proof.
  rewrite !is_valid_game_csv_pieces. change (lit "," ++ b) with (44 :: b).
  now rewrite split_app_sep, forallb_app.
Qed.

(** X2.  The usual way to build the argument, [",".join(str(i) for i in
    ids)], is accepted exactly when no id is negative; the empty list,
    which gives the empty string, is accepted. *)
Theorem is_valid_game_csv_ids (self : RAClient) (ids : list Z) :
  is_valid_game_csv self (VStr (join 44 (List.map str_of_int ids))) =
  forallb (Z.leb 0) ids.
Proof.
  destruct ids as [|i ids]; [reflexivity|].
  rewrite is_valid_game_csv_pieces, split_join.
  - generalize (i :: ids). intros l.
    induction l as [|n l IH]; simpl; [reflexivity|].
    now rewrite piece_ok_str_of_int, IH.
  - discriminate.
  - intros t Ht. apply in_map_iff in Ht as (n & <- & _). apply str_of_int_no_comma.
Qed.

(** ** Every wrapper, every call *)

Lemma with_advisories_nil (w : World) : with_advisories w [] = w.
Proof. destruct w. unfold with_advisories. simpl. now rewrite app_nil_r. Qed.

Lemma default_date_first {A} (d : option pystr) (k : pystr -> M A) (w : World) :
  (date <- match d with
           | None => x <- date_today ;; ret (strftime_Ymd x)
           | Some s => ret s
           end ;; k date) w =
  k (match d with
     | None => strftime_Ymd (today w)
     | Some s => s
     end) w.
Proof. now destruct d. Qed.

Lemma dict_setitem_absent (k : pystr) (v : value) (d : dict) :
  dict_get k d = None -> dict_setitem k v d = d ++ [(k, v)].
Proof.
  induction d as [|[k' v'] d IH]; simpl; [reflexivity|].
  destruct (pystr_eqb k k'); [discriminate|]. intros H. now rewrite IH.
Qed.

(** The checks of a wrapper, taken one at a time: a failed one is a
    refusal with its reason, and the body after the last one sends. *)
Ltac unfold_wrapper w :=
  match goal with
  | |- context [?m w] =>
      let f := match m with
               | ?f _ _ _ _ _ _ => f | ?f _ _ _ _ _ => f
               | ?f _ _ _ _ => f | ?f _ _ _ => f | ?f _ _ => f
               | ?f _ => f
               end in
      unfold f
  end.

Ltac side_condition :=
  simpl arg_default;
  match goal with
  | E : negb ?b = true |- ~ In _ _ =>
      let H := fresh in
      intros H; first [apply int_in_spec in H | apply str_in_spec in H];
      rewrite H in E; discriminate E
  | E : negb ?b = false |- In _ _ =>
      apply negb_false_iff in E;
      first [apply int_in_spec | apply str_in_spec]; exact E
  end.

Ltac refuse :=
  left; eexists; split; [reflexivity|];
  simpl refusal_reason;
  first
    [ left; econstructor; side_condition
    | right; do 2 eexists; split; [reflexivity|];
      split; [now apply negb_true_iff | reflexivity]
    | split; [reflexivity | eexists; reflexivity] ].

Ltac send :=
  right; do 2 eexists; split; cycle 1;
  [ match goal with
    | |- _ ?w0 = _ => apply plain_wrapper_run with (w := w0)
    end
  | reflexivity ].

Ltac settle :=
  first
    [ rewrite check_first;
      match goal with
      | |- context [if ?b then (Raise _, _) else _] =>
          let E := fresh "E" in
          destruct b eqn:E;
          [ first [ exfalso; vm_compute in E; discriminate E | refuse ]
          | settle ]
      end
    | refuse
    | send ].

(** What a call of a wrapper comes to.  Either it is refused before
    anything is done, or one dict is made, one request is sent and the
    answer is relayed. *)
Lemma invoke_outcomes (self : RAClient) (c : call) (w : World) :
  (exists e,
      invoke self c w = (Raise e, with_advisories w (advisory_of c)) /\
      refusal_reason self c e) \/
  (exists endpoint items,
      dict_get (lit "y") items = None /\
      invoke self c w =
      (relayed (server (sent w) (wrapper_request self endpoint items)),
       mkWorld (heap w ++ [req_params (wrapper_request self endpoint items)])
               (sent w ++ [wrapper_request self endpoint items])
               (advisories w ++ advisory_of c) (today w))).
Proof.
  destruct c; simpl invoke; simpl advisory_of;
    rewrite ?with_advisories_nil, ?app_nil_r;
    repeat match goal with a : arg _ |- _ => destruct a end;
    repeat match goal with a : option pystr |- _ => destruct a end;
    unfold_wrapper w; cbv zeta; simpl arg_default;
    rewrite ?warn_first, ?default_date_first;
    settle.
Qed.


(** X3.  A call of any wrapper sends nothing or exactly one request.
    The request is a GET to the base URL followed by the endpoint, with
    the timeout of 30 and without headers (the [User-Agent] of the class
    attribute [headers] is never passed on); its query parameters are
    those of the wrapper, none of them named ["y"], followed by
    ["y"] with the API key. *)
Theorem one_request_per_call (self : RAClient) (c : call) (w : World) :
  sent (snd (invoke self c w)) = sent w \/
  exists rq,
    sent (snd (invoke self c w)) = sent w ++ [rq] /\
    req_method rq = GET /\
    (exists endpoint, req_url rq = _BASE_URL ++ endpoint) /\
    req_timeout rq = 30%Z /\
    req_headers rq = None /\
    exists items,
      dict_get (lit "y") items = None /\
      req_params rq = items ++ [(lit "y", VStr (api_key self))].
Proof.
  destruct (invoke_outcomes self c w)
    as [(e & -> & _) | (endpoint & items & Hy & ->)].
  - now left.
  - right. exists (wrapper_request self endpoint items). simpl.
    split; [reflexivity|]. split; [reflexivity|].
    split; [now exists endpoint|]. split; [reflexivity|].
    split; [reflexivity|]. exists items. split; [assumption|].
    now apply dict_setitem_absent.
Qed.


(** X5.  What a wrapper returns is the decoded body of the answer to
    the one request it sent, as it is; the status code of the answer plays
    no part. *)
Theorem wrapper_result (self : RAClient) (c : call) (w : World) (j : JSON) :
  fst (invoke self c w) = Return j ->
  exists rq r,
    sent (snd (invoke self c w)) = sent w ++ [rq] /\
    server (sent w) rq = Some r /\
    decoded r = Some j.
Proof.
  destruct (invoke_outcomes self c w)
    as [(e' & -> & _) | (endpoint & items & _ & ->)]; simpl.
  - discriminate.
  - intros Hret. exists (wrapper_request self endpoint items).
    unfold relayed in Hret. destruct (server _ _) as [r|]; [|discriminate].
    exists r. destruct (decoded r); [|discriminate].
    injection Hret as <-. auto.
Qed.

(** X6.  No wrapper touches a dict that exists when it is called: after
    the call, whatever its outcome, every such dict holds what it held. *)
Theorem wrappers_leave_dicts_alone (self : RAClient) (c : call) (w : World)
    (p : ref) (d : dict) :
  heap w !! p = Some d ->
  heap (snd (invoke self c w)) !! p = Some d.
Proof.
  intros Hp.
  destruct (invoke_outcomes self c w)
    as [(e' & -> & _) | (endpoint & items & _ & ->)]; simpl.
  - assumption.
  - now apply lookup_app_l_Some.
Qed.

(** ** More on the dispatcher *)

Lemma requests_get_heap (url : pystr) (p : ref) (timeout : Z)
    (headers : option ref) (w : World) :
  heap (snd (requests_get url p timeout headers w)) = heap w.
Proof.
  unfold requests_get, bind, read_dict. cbv beta.
  destruct (heap w !! p); [|reflexivity].
  destruct headers as [h|]; simpl.
  - unfold bind, read_dict. cbv beta.
    destruct (heap w !! h); simpl; [|reflexivity].
    now destruct (server _ _).
  - now destruct (server _ _).
Qed.

(** X7.  The dispatcher writes the API key into the dict of the caller
    and leaves it there: after the call the dict binds ["y"], whether the
    request went through, the transport failed, or the headers argument
    made the call raise. *)
Theorem call_api_marks_caller_dict (self : RAClient)
    (endpoint : arg (option pystr)) (timeout : arg Z)
    (headers : arg (option ref)) (p : ref) (d : dict) (w : World) :
  heap w !! p = Some d ->
  heap (snd (_call_api self endpoint (Passed (Some p)) timeout headers w)) =
    <[p := dict_setitem (lit "y") (VStr (api_key self)) d]> (heap w) /\
  exists d',
    heap (snd (_call_api self endpoint (Passed (Some p)) timeout headers w)) !! p =
      Some d' /\
    dict_get (lit "y") d' = Some (VStr (api_key self)).
Proof.
  intros Hp.
  assert (Hheap :
    heap (snd (_call_api self endpoint (Passed (Some p)) timeout headers w)) =
    <[p := dict_setitem (lit "y") (VStr (api_key self)) d]> (heap w)).
  { unfold _call_api. cbv zeta. simpl arg_default. unfold bind.
    rewrite (url_params_some self p d w Hp). cbv beta iota.
    match goal with
    | |- context [requests_get ?url p ?t ?h ?w1] =>
        pose proof (requests_get_heap url p t h w1) as Hg;
        destruct (requests_get url p t h w1) as [[o|e] w2]; exact Hg
    end. }
  split; [assumption|]. rewrite Hheap.
  exists (dict_setitem (lit "y") (VStr (api_key self)) d). split.
  - apply list_lookup_insert_eq. now apply lookup_lt_Some in Hp.
  - apply dict_get_setitem_eq.
Qed.

(** X8.  [url_params] without a dict makes a new one that holds the API
    key and nothing else, at a reference that was free; the dicts that
    exist stay as they are. *)
Theorem url_params_fresh (self : RAClient) (w : World) :
  exists p,
    fst (url_params self None w) = Return p /\
    heap w !! p = None /\
    heap (snd (url_params self None w)) !! p =
      Some [(lit "y", VStr (api_key self))] /\
    forall q d, heap w !! q = Some d ->
                heap (snd (url_params self None w)) !! q = Some d.
Proof.
  rewrite url_params_none. simpl. exists (length (heap w)).
  split; [reflexivity|]. split; [now apply lookup_ge_None|].
  split; [apply lookup_fresh|]. intros q d Hq. now apply lookup_app_l_Some.
Qed.

Lemma dict_setitem_twice (k : pystr) (v v' : value) (d : dict) :
  dict_setitem k v' (dict_setitem k v d) = dict_setitem k v' d.
Proof.
  induction d as [|[k0 v0] d IH]; simpl.
  - now rewrite pystr_eqb_refl.
  - destruct (pystr_eqb k k0) eqn:E; simpl; rewrite E; [reflexivity|].
    now rewrite IH.
Qed.

(** X9.  Merging twice into the same dict is merging once, and when two
    clients merge into one dict the key of the second stays: nothing
    piles up in a dict that is used again. *)
Theorem url_params_last_key_wins (first second : RAClient) (p : ref)
    (d : dict) (w : World) :
  heap w !! p = Some d ->
  (url_params first (Some p) ;;; url_params second (Some p)) w =
  url_params second (Some p) w.
Proof.
  intros Hp. unfold bind. rewrite (url_params_some first p d w Hp).
  erewrite url_params_some
    by (simpl; apply list_lookup_insert_eq; now apply lookup_lt_Some in Hp).
  rewrite (url_params_some second p d w Hp). simpl.
  now rewrite list_insert_insert_eq, dict_setitem_twice.
Qed.

(** ** More on the wrappers *)

Lemma get_user_progress_valid (self : RAClient) (user : pystr) (game : value)
    (w : World) :
  is_valid_game_csv self game = true ->
  get_user_progress self user game w =
  plain_wrapper self (lit "API_GetUserProgress.php?")
                [(lit "u", VStr user); (lit "i", game)]
                (with_advisories w [mkAdvisory user_progress_advisory Warning]).
Proof.
  intros Hvalid. unfold get_user_progress.
  now rewrite warn_first, check_first, Hvalid.
Qed.

(** X10.  What the validator lets through reaches the server as it is:
    [get_user_progress] sends an integer of any sign, and a string made
    of commas only, the empty string included, under ["i"]. *)
Theorem get_user_progress_lets_through (self : RAClient) (user : pystr)
    (w : World) :
  (forall n : Z,
      exists rq,
        sent (snd (get_user_progress self user (VInt n) w)) = sent w ++ [rq] /\
        dict_get (lit "i") (req_params rq) = Some (VInt n)) /\
  (forall k : nat,
      exists rq,
        sent (snd (get_user_progress self user (VStr (repeat 44 k)) w)) =
          sent w ++ [rq] /\
        dict_get (lit "i") (req_params rq) = Some (VStr (repeat 44 k))).
Proof.
  split.
  - intros n. rewrite get_user_progress_valid by reflexivity.
    rewrite plain_wrapper_run. eexists. split; reflexivity.
  - intros k.
    assert (Hvalid : is_valid_game_csv self (VStr (repeat 44 k)) = true).
    { induction k as [|k IH]; [reflexivity|].
      change (repeat 44 (S k)) with ([] ++ lit "," ++ repeat 44 k).
      now rewrite is_valid_game_csv_comma, IH. }
    rewrite get_user_progress_valid by assumption.
    rewrite plain_wrapper_run. eexists. split; reflexivity.
Qed.

(** X11.  A date that is passed is sent as it is under ["d"], whatever
    the string holds: its form is not checked and the clock is not read.
    [get_user_achievements_earned_on_day] does so always,
    [get_recent_game_awards] for every offset and count and every kind
    that it accepts; with a kind that it refuses it sends nothing. *)
Theorem explicit_date_sent_verbatim (self : RAClient) (user s : pystr)
    (w : World) :
  (exists rq,
      sent (snd (get_user_achievements_earned_on_day self user
                   (Passed (Some s)) w)) = sent w ++ [rq] /\
      dict_get (lit "d") (req_params rq) = Some (VStr s)) /\
  (forall offset count kind,
      kind_accepted kind ->
      exists rq,
        sent (snd (get_recent_game_awards self (Passed (Some s)) offset count
                     kind w)) = sent w ++ [rq] /\
        dict_get (lit "d") (req_params rq) = Some (VStr s) /\
        dict_get (lit "k") (req_params rq) =
          Some (value_of_optional (arg_default None kind))) /\
  (forall offset count kind,
      ~ kind_accepted kind ->
      sent (snd (get_recent_game_awards self (Passed (Some s)) offset count
                   kind w)) = sent w).
Proof.
  split; [|split].
  - change (get_user_achievements_earned_on_day self user (Passed (Some s)))
      with (plain_wrapper self (lit "API_GetAchievementsEarnedOnDay.php?")
              [(lit "u", VStr user); (lit "d", VStr s)]).
    rewrite plain_wrapper_run. eexists. split; reflexivity.
  - intros offset count kind Hkind.
    unfold get_recent_game_awards. cbv zeta.
    simpl (arg_default None (Passed (Some s))).
    rewrite default_date_first, check_first.
    unfold kind_accepted in Hkind.
    destruct (arg_default None kind) as [k|] eqn:Ek.
    + apply str_in_spec in Hkind. rewrite Hkind. simpl negb. cbv iota.
      match goal with
      | |- context [bind (new_dict ?items) _ w] =>
          change (bind (new_dict items) _ w)
            with (plain_wrapper self (lit "API_GetRecentGameAwards.php?") items w)
      end.
      rewrite plain_wrapper_run. eexists. repeat split; reflexivity.
    + match goal with
      | |- context [bind (new_dict ?items) _ w] =>
          change (bind (new_dict items) _ w)
            with (plain_wrapper self (lit "API_GetRecentGameAwards.php?") items w)
      end.
      rewrite plain_wrapper_run. eexists. repeat split; reflexivity.
  - intros offset count kind Hkind.
    unfold get_recent_game_awards. cbv zeta.
    simpl (arg_default None (Passed (Some s))).
    rewrite default_date_first, check_first.
    unfold kind_accepted in Hkind.
    destruct (arg_default None kind) as [k|]; [|now destruct Hkind].
    rewrite str_in_false by assumption. reflexivity.
Qed.


End Client.

(** ** The theorems at concrete inputs *)

Lemma is_valid_game_csv_spec_witness :
  is_valid_game_csv ascii_only ascii_only client_abc123 (VBool true) = true /\
  is_valid_game_csv ascii_only ascii_only client_abc123 (VStr (lit "123a")) = false /\
  is_valid_game_csv ascii_only ascii_only client_abc123 (VStr (lit "123, ")) = false /\
  is_valid_game_csv ascii_only ascii_only client_abc123 (VList [VInt 1]) = false.
Proof.
  destruct (is_valid_game_csv_spec ascii_only ascii_only client_abc123)
    as (Hint & _ & _ & _ & _ & Hbad & Hblank & Hother).
  split; [apply Hint; reflexivity|].
  split; [apply (Hbad (lit "123a") (lit "123a") 97);
          [left; reflexivity | right; right; right; left; reflexivity | reflexivity]|].
  split; [apply (Hblank (lit "123, ") (lit " "));
          [right; left; reflexivity |
           split; [discriminate | intros c [<-|[]]; reflexivity]]|].
  apply Hother; reflexivity.
Defined.

Lemma negative_int_asymmetry_witness :
  is_valid_game_csv ascii_only ascii_only client_abc123 (VInt (-5)) = true /\
  is_valid_game_csv ascii_only ascii_only client_abc123 (VStr (lit "-5")) = false.
Proof.
  apply (negative_int_asymmetry ascii_only ascii_only client_abc123 (-5)).
  reflexivity.
Defined.

Lemma call_api_sends_auth_witness :
  exists rq,
    sent (snd (_call_api null_server client_abc123
                 (Passed (Some (lit "API_GetGame.php?")))
                 (Passed (Some 0%nat)) Omitted Omitted world1)) = [rq] /\
    req_params rq = [(lit "y", VStr (lit "abc123")); (lit "i", VInt 10)].
Proof.
  destruct (call_api_sends_auth null_server client_abc123
              (Passed (Some (lit "API_GetGame.php?")))
              (Passed (Some 0%nat)) Omitted Omitted world1)
    as (rq & Hsent & Hparams & _).
  - intros p [= <-]. simpl. lia.
  - intros p [=].
  - exists rq. split; assumption.
Defined.


Lemma url_params_in_place_witness :
  exists d',
    fst (url_params client_abc123 (Some 0%nat) world1) = Return 0%nat /\
    heap (snd (url_params client_abc123 (Some 0%nat) world1)) !! 0%nat = Some d' /\
    dict_get (lit "y") d' = Some (VStr (lit "abc123")) /\
    dict_get (lit "i") d' = Some (VInt 10).
Proof.
  destruct (url_params_in_place client_abc123 0%nat
              [(lit "y", VStr (lit "mine")); (lit "i", VInt 10)] world1 eq_refl)
    as (d' & Hret & Hheap & Hy & Hothers & _).
  exists d'. split; [assumption|]. split; [assumption|]. split; [assumption|].
  rewrite Hothers; [reflexivity | discriminate].
Defined.

Lemma enumerated_values_checked_witness :
  invoke ascii_only ascii_only null_server client_abc123
         (Call_get_game_info_and_user_progress (lit "user") 10%Z (Passed 2%Z))
         world0 =
  (Raise (ValueError "Invalid awards value. Must be 0 or 1."), world0).
Proof.
  apply (enumerated_values_checked ascii_only ascii_only null_server
           client_abc123 _ _ world0).
  apply bad_awards. intros [H|[H|[]]]; discriminate.
Defined.


(** ** Concrete runs *)

(** A transport failure surfaces as it is; the request had been sent. *)
Lemma get_game_unreachable :
  get_game unreachable_server client_abc123 10%Z world0 =
  (Raise RequestException,
   mkWorld [req_params (wrapper_request client_abc123 (lit "API_GetGame.php?")
                                        [(lit "i", VInt 10)])]
           [wrapper_request client_abc123 (lit "API_GetGame.php?")
                            [(lit "i", VInt 10)]]
           [] (today world0)).
Proof. reflexivity. Qed.


(** [get_user_progress] with a game argument that is not a CSV of numbers:
    the advisory is emitted, then the call raises and no request leaves. *)
Lemma get_user_progress_advisory_then_refusal :
  advisories (snd (get_user_progress ascii_only ascii_only null_server
                     client_abc123 (lit "user") (VStr (lit "123a")) world0)) =
    [mkAdvisory user_progress_advisory Warning] /\
  fst (get_user_progress ascii_only ascii_only null_server
         client_abc123 (lit "user") (VStr (lit "123a")) world0) =
    Raise (ValueError "Invalid game ID or CSV format") /\
  ~ (exists rq,
        sent (snd (get_user_progress ascii_only ascii_only null_server
                     client_abc123 (lit "user") (VStr (lit "123a")) world0)) =
        sent world0 ++ [rq]).
Proof.
  split; [reflexivity|]. split; [reflexivity|].
  intros [rq Hrq]. discriminate Hrq.
Qed.

(** [get_user_achievements_earned_on_day] called with a user and no
    date. *)
Lemma earned_on_day_without_date :
  get_user_achievements_earned_on_day null_server client_abc123
    (lit "user") Omitted world0 =
  (Raise (TypeError "date"), world0).
Proof. reflexivity. Qed.

(** ** Further theorems at concrete inputs *)


Lemma wrapper_result_witness :
  exists rq r,
    sent (snd (invoke ascii_only ascii_only null_server client_abc123
                 (Call_get_game 10%Z) world0)) = [rq] /\
    null_server [] rq = Some r /\
    decoded r = Some JNull.
Proof.
  apply (wrapper_result ascii_only ascii_only null_server client_abc123
           (Call_get_game 10%Z) world0 JNull).
  reflexivity.
Defined.

Lemma wrappers_leave_dicts_alone_witness :
  heap (snd (invoke ascii_only ascii_only null_server client_abc123
               (Call_get_comments 7%Z 2%Z Omitted Omitted Omitted) world1))
    !! 0%nat =
  Some [(lit "y", VStr (lit "mine")); (lit "i", VInt 10)].
Proof.
  apply (wrappers_leave_dicts_alone ascii_only ascii_only null_server
           client_abc123 (Call_get_comments 7%Z 2%Z Omitted Omitted Omitted)
           world1 0%nat).
  reflexivity.
Defined.

Lemma call_api_marks_caller_dict_witness :
  exists d',
    heap (snd (_call_api unreachable_server client_abc123
                 (Passed (Some (lit "API_GetGame.php?")))
                 (Passed (Some 0%nat)) Omitted Omitted world1)) !! 0%nat =
      Some d' /\
    dict_get (lit "y") d' = Some (VStr (lit "abc123")).
Proof.
  apply (call_api_marks_caller_dict unreachable_server client_abc123
           (Passed (Some (lit "API_GetGame.php?"))) Omitted Omitted 0%nat
           [(lit "y", VStr (lit "mine")); (lit "i", VInt 10)] world1).
  reflexivity.
Defined.

Lemma url_params_last_key_wins_witness :
  (url_params client_abc123 (Some 0%nat) ;;;
   url_params client_other (Some 0%nat)) world1 =
  url_params client_other (Some 0%nat) world1.
Proof.
  apply (url_params_last_key_wins client_abc123 client_other 0%nat
           [(lit "y", VStr (lit "mine")); (lit "i", VInt 10)] world1).
  reflexivity.
Defined.


Lemma explicit_date_sent_verbatim_witness :
  exists rq,
    sent (snd (get_recent_game_awards null_server client_abc123
                 (Passed (Some (lit "yesterday"))) Omitted Omitted
                 (Passed (Some (lit "mastered"))) world0)) = [rq] /\
    dict_get (lit "d") (req_params rq) = Some (VStr (lit "yesterday")) /\
    dict_get (lit "k") (req_params rq) = Some (VStr (lit "mastered")).
Proof.
  destruct (explicit_date_sent_verbatim null_server client_abc123
              (lit "user") (lit "yesterday") world0) as (_ & Haccepted & _).
  apply (Haccepted Omitted Omitted (Passed (Some (lit "mastered")))).
  right. right. right. left. reflexivity.
Defined.
